(** * Operators of pytorch_quantum: a shallow embedding of
      [pytorch_quantum/operators.py]

    The file follows the Python module top to bottom: the wire enumeration,
    the [Operator] base class, the [Observable], [Operation] and
    [DiagonalOperation] mixins and the catalogue of concrete gates.

    Python objects are records, [None] is [option]'s [None], exceptions are
    a sum type, and methods that read or write [self], the logger or the
    device run in a small state-and-exception monad [M].

    Conventions of the embedding:
    - tensor entries (Python and torch floats) are idealised as real
      numbers, complex entries as pairs of reals;
    - [torch.empty] and [torch.nn.init.uniform_] read their values from a
      [Torch] record, so that what is left uninitialised and what is drawn
      is visible in the result;
    - [pytorch_quantum.functional] is a [Functional] record;
    - a kernel call is recorded in the world, the kernel is assumed to
      return, and the device is a handle;
    - the instances are [torch.nn.Module]s: assigning to [self.params]
      goes through [nn.Module.__setattr__], which registers an
      [nn.Parameter] under the name ['params'] and refuses a plain tensor
      for a name that holds a registered parameter. *)

From Stdlib Require Import List String ZArith Bool Reals Lra Lia.
Import ListNotations.

Local Open Scope string_scope.
Local Open Scope list_scope.

(** ** Python scaffolding *)

(** The exceptions that the module raises itself or provokes in the
    interpreter. *)
Inductive exn : Type :=
| AssertionError
| NotImplementedError
| TypeError
| IndexError
| AttributeError.

Inductive result (A : Type) : Type :=
| Ok (a : A)
| Raise (e : exn).
Arguments Ok {A} a.
Arguments Raise {A} e.

(** An argument of a call that has no default: it is given or it is not. *)
Inductive pyarg (A : Type) : Type :=
| Missing
| Given (a : A).
Arguments Missing {A}.
Arguments Given {A} a.

Definition is_ok {A} (r : result A) : bool :=
  match r with Ok _ => true | Raise _ => false end.

Definition is_some {A} (a : option A) : bool :=
  match a with Some _ => true | None => false end.

(** ** Numbers, tensors, matrices *)

(** A complex number, real part first. *)
Definition C : Type := (R * R)%type.

Definition c_re (x : R) : C := (x, 0%R).
Definition c_zero : C := c_re 0.
Definition c_one : C := c_re 1.
Definition c_i : C := (0%R, 1%R).
Definition c_add (a b : C) : C := ((fst a + fst b)%R, (snd a + snd b)%R).
Definition c_mul (a b : C) : C :=
  ((fst a * fst b - snd a * snd b)%R, (fst a * snd b + snd a * fst b)%R).
Definition c_neg (a : C) : C := ((- fst a)%R, (- snd a)%R).
(** [e^{i x}] *)
Definition c_expi (x : R) : C := (cos x, sin x).

Definition Vector : Type := list C.
Definition Matrix : Type := list (list C).

(** A two-dimensional real tensor [batch, numParams], one list per batch
    row, with its [requires_grad] flag; [is_parameter] tells an
    [nn.Parameter] from a plain [torch.Tensor]. *)
Record tensor : Type := mkTensor {
  data : list (list R);
  requires_grad : bool;
  is_parameter : bool
}.

(** The tensor after an in-place write of its cells. *)
Definition with_data (t : tensor) (d : list (list R)) : tensor :=
  mkTensor d (requires_grad t) (is_parameter t).

Definition ncols (d : list (list R)) : nat :=
  match d with
  | [] => 0
  | r :: _ => List.length r
  end.

(** [torch.diag] on a vector: the square matrix with the vector on its
    diagonal and zero elsewhere. *)
Definition diag_row (n k : nat) (x : C) : list C :=
  map (fun j => if Nat.eqb j k then x else c_zero) (seq 0 n).

Fixpoint diag_rows (n k : nat) (v : Vector) : Matrix :=
  match v with
  | [] => []
  | x :: v' => diag_row n k x :: diag_rows n (Datatypes.S k) v'
  end.

Definition diag (v : Vector) : Matrix := diag_rows (List.length v) 0 v.

(** ** WiresEnum *)

Definition AnyWires : Z := (-1)%Z.
Definition AllWires : Z := 0%Z.

(** ** The classes of the catalogue *)

Inductive gate : Type :=
| Hadamard | PauliX | PauliY | PauliZ | S | T | SX
| CNOT | CZ | CY | SWAP | CSWAP | Toffoli
| RX | RY | RZ | PhaseShift | Rot | MultiRZ
| CRX | CRY | CRZ | CRot | U1.

(** [cls.__name__] *)
Definition class_name (g : gate) : string :=
  match g with
  | Hadamard => "Hadamard" | PauliX => "PauliX" | PauliY => "PauliY"
  | PauliZ => "PauliZ" | S => "S" | T => "T" | SX => "SX"
  | CNOT => "CNOT" | CZ => "CZ" | CY => "CY" | SWAP => "SWAP"
  | CSWAP => "CSWAP" | Toffoli => "Toffoli"
  | RX => "RX" | RY => "RY" | RZ => "RZ" | PhaseShift => "PhaseShift"
  | Rot => "Rot" | MultiRZ => "MultiRZ"
  | CRX => "CRX" | CRY => "CRY" | CRZ => "CRZ" | CRot => "CRot"
  | U1 => "U1"
  end.

(** The base classes, as written in each [class] statement. *)
Inductive base : Type :=
| ObservableOnly          (* class G(Observable) *)
| ObservableOperation     (* class G(Observable, Operation) *)
| PlainOperation          (* class G(Operation) *)
| Diagonal.               (* class G(DiagonalOperation) *)

Definition bases (g : gate) : base :=
  match g with
  | Hadamard => ObservableOperation
  | PauliX | PauliY | PauliZ => ObservableOnly
  | S | T | CZ | RZ | PhaseShift | MultiRZ | U1 => Diagonal
  | SX | CNOT | CY | SWAP | CSWAP | Toffoli
  | RX | RY | Rot | CRX | CRY | CRZ | CRot => PlainOperation
  end.

Definition is_observable (g : gate) : bool :=
  match bases g with
  | ObservableOnly | ObservableOperation => true
  | _ => false
  end.

Definition is_operation (g : gate) : bool :=
  match bases g with
  | ObservableOnly => false
  | _ => true
  end.

Definition is_diagonal (g : gate) : bool :=
  match bases g with
  | Diagonal => true
  | _ => false
  end.

Definition num_params (g : gate) : nat :=
  match g with
  | RX | RY | RZ | PhaseShift | MultiRZ | CRX | CRY | CRZ | U1 => 1
  | Rot | CRot => 3
  | _ => 0
  end.

Definition num_wires (g : gate) : Z :=
  match g with
  | Hadamard | PauliX | PauliY | PauliZ | S | T | SX => 1
  | CNOT | CZ | CY | SWAP => 2
  | CSWAP | Toffoli => 3
  | RX | RY | RZ | PhaseShift | Rot | U1 => 1
  | MultiRZ => AnyWires
  | CRX | CRY | CRZ | CRot => 2
  end%Z.

(** [func = staticmethod(tqf.<name>)]: the kernel of the class, by the name
    it has in [pytorch_quantum.functional]. *)
Definition func (g : gate) : string :=
  match g with
  | Hadamard => "hadamard" | PauliX => "paulix" | PauliY => "pauliy"
  | PauliZ => "pauliz" | S => "s" | T => "t" | SX => "sx"
  | CNOT => "cnot" | CZ => "cz" | CY => "cy" | SWAP => "swap"
  | CSWAP => "cswap" | Toffoli => "toffoli"
  | RX => "rx" | RY => "ry" | RZ => "rz" | PhaseShift => "phaseshift"
  | Rot => "rot" | MultiRZ => "multirz"
  | CRX => "crx" | CRY => "cry" | CRZ => "crz" | CRot => "crot"
  | U1 => "u1"
  end.

(** [Operator.fixed_ops] and [Operator.parameterized_ops] *)
Definition fixed_ops : list string :=
  ["Hadamard"; "PauliX"; "PauliY"; "PauliZ"; "S"; "T"; "SX";
   "CNOT"; "CZ"; "CY"; "SWAP"; "CSWAP"; "Toffoli"].

Definition parameterized_ops : list string :=
  ["RX"; "RY"; "RZ"; "PhaseShift"; "Rot"; "MultiRZ";
   "CRX"; "CRY"; "CRZ"; "CRot"; "U1"].

(** [x in l] on lists of strings *)
Definition py_in (x : string) (l : list string) : bool :=
  existsb (String.eqb x) l.

(** ** Collaborators outside this module *)

(** [pytorch_quantum.functional] ([tqf]): the table of constant matrices and
    the matrix builders of the parameterised gates.  The module under study
    only calls them; they are taken as given.  A builder receives whatever
    [self.params] holds, [None] included, and may raise. *)
Record Functional : Type := mkFunctional {
  mat_dict : string -> Matrix;
  rx_matrix : option tensor -> result Matrix;
  ry_matrix : option tensor -> result Matrix;
  rz_matrix : option tensor -> result Matrix;
  phaseshift_matrix : option tensor -> result Matrix;
  rot_matrix : option tensor -> result Matrix;
  multirz_matrix : option tensor -> option Z -> result Matrix;
  crx_matrix : option tensor -> result Matrix;
  cry_matrix : option tensor -> result Matrix;
  crz_matrix : option tensor -> result Matrix;
  crot_matrix : option tensor -> result Matrix;
  u1_matrix : option tensor -> result Matrix
}.

(** [torch]: what [torch.empty] finds in the memory it allocates, cell by
    cell, and the stream of draws behind [torch.nn.init.uniform_]. *)
Record Torch : Type := mkTorch {
  empty_cell : nat -> R;
  uniform_draw : nat -> R
}.

(** [tq.QuantumDevice] is opaque here: a handle. *)
Definition QuantumDevice : Type := nat.

(** ** Objects and the world around them *)

(** An instance.  [has_params] and [trainable] are [None] while the
    attribute does not exist ([Operation.__init__] creates them); [params]
    and [n_wires] hold Python's [None] as [None].  [registered] holds the
    names that the code has passed to [register_parameter], in order. *)
Record obj : Type := mkObj {
  cls : gate;                    (* self.__class__ *)
  _name : string;
  params : option tensor;
  n_wires : option Z;
  has_params : option bool;
  trainable : option bool;
  return_type : bool;            (* Observable.__init__ set it (to None) *)
  registered : list string
}.

(** The keys of [self._parameters].  Besides the names registered by
    [register_parameter], [torch.nn.Module] registers under the name of the
    attribute every [nn.Parameter] that is assigned to an attribute: the
    key ['params'] is there exactly when [self.params] is an
    [nn.Parameter].  ([nn.Module.__init__] empties the registry before
    [Operator.__init__] stores [None], and nothing in this module assigns
    [None] afterwards.) *)
Definition _parameters (o : obj) : list string :=
  registered o
  ++ match params o with
     | Some t => if is_parameter t then ["params"] else []
     | None => []
     end.

Inductive log_record : Type :=
| Warning (msg : string)         (* logger.warning *)
| Exception (msg : string).      (* logger.exception *)

(** One call of a kernel [self.func(q_device, wires, ...)]; the keyword
    arguments [params=] and [n_wires=] are given or not. *)
Record kernel_call : Type := mkCall {
  k_func : string;
  k_device : QuantumDevice;
  k_wires : list Z;
  k_params : pyarg tensor;
  k_n_wires : pyarg Z
}.

Record world : Type := mkWorld {
  log : list log_record;
  rng_pos : nat;                 (* draws consumed so far *)
  calls : list kernel_call       (* kernel calls, oldest first *)
}.

Definition world0 : world := mkWorld [] 0 [].

(** ** The monad of methods *)

(** A method runs on [self] and the world; a raised exception keeps the
    writes made before it. *)
Definition M (A : Type) : Type := obj -> world -> result A * obj * world.

Definition ret {A} (a : A) : M A := fun o w => (Ok a, o, w).

Definition raise {A} (e : exn) : M A := fun o w => (Raise e, o, w).

Definition bind {A B} (m : M A) (k : A -> M B) : M B :=
  fun o w =>
    match m o w with
    | (Ok a, o', w') => k a o' w'
    | (Raise e, o', w') => (Raise e, o', w')
    end.

Notation "x <- m ;; k" := (bind m (fun x => k))
  (at level 61, m at next level, right associativity).
Notation "m ;; k" := (bind m (fun _ => k))
  (at level 61, right associativity).

Definition lift {A} (r : result A) : M A := fun o w => (r, o, w).

(** Read an attribute that always exists. *)
Definition gets {A} (f : obj -> A) : M A := fun o w => (Ok (f o), o, w).

(** Read an attribute that may not exist. *)
Definition get_attr {A} (f : obj -> option A) : M A :=
  fun o w =>
    match f o with
    | Some a => (Ok a, o, w)
    | None => (Raise AttributeError, o, w)
    end.

Definition modify (f : obj -> obj) : M unit := fun o w => (Ok tt, f o, w).

Definition set__name (v : string) : M unit :=
  modify (fun o => mkObj (cls o) v (params o) (n_wires o) (has_params o)
                         (trainable o) (return_type o) (registered o)).

Definition set_params (v : option tensor) : M unit :=
  modify (fun o => mkObj (cls o) (_name o) v (n_wires o) (has_params o)
                         (trainable o) (return_type o) (registered o)).

Definition set_n_wires (v : option Z) : M unit :=
  modify (fun o => mkObj (cls o) (_name o) (params o) v (has_params o)
                         (trainable o) (return_type o) (registered o)).

Definition set_has_params (v : bool) : M unit :=
  modify (fun o => mkObj (cls o) (_name o) (params o) (n_wires o) (Some v)
                         (trainable o) (return_type o) (registered o)).

Definition set_trainable (v : bool) : M unit :=
  modify (fun o => mkObj (cls o) (_name o) (params o) (n_wires o)
                         (has_params o) (Some v) (return_type o)
                         (registered o)).

Definition set_return_type : M unit :=
  modify (fun o => mkObj (cls o) (_name o) (params o) (n_wires o)
                         (has_params o) (trainable o) true (registered o)).

(** [self.register_parameter(nm, ...)]: a new key goes last, a key that
    is there stays where it is.  (The names met at construction are
    [<ClassName>_params]; the names that [register_parameter] refuses,
    empty or with a dot, do not arise there.) *)
Definition register_parameter (nm : string) : M unit :=
  modify (fun o => mkObj (cls o) (_name o) (params o) (n_wires o)
                         (has_params o) (trainable o) (return_type o)
                         (if py_in nm (registered o)
                          then registered o
                          else registered o ++ [nm])).

(** [nn.Module.__init__], as far as the registry goes. *)
Definition Module__init__ : M unit :=
  modify (fun o => mkObj (cls o) (_name o) (params o) (n_wires o)
                         (has_params o) (trainable o) (return_type o) []).

(** The assignment [self.params = v] through [nn.Module.__setattr__]: an
    [nn.Parameter] is always accepted (and registered under ['params']);
    while ['params'] is a registered parameter, anything else than an
    [nn.Parameter] or [None] is refused with [TypeError] and nothing is
    stored; otherwise the value is stored. *)
Definition setattr_params (v : option tensor) : M unit :=
  stored <- gets params ;;
  match v, stored with
  | Some t, Some s =>
      if negb (is_parameter t) && is_parameter s
      then raise TypeError
      else set_params v
  | _, _ => set_params v
  end.

Definition logger (r : log_record) : M unit :=
  fun o w => (Ok tt, o, mkWorld (log w ++ [r]) (rng_pos w) (calls w)).

Definition call_kernel (c : kernel_call) : M unit :=
  fun o w => (Ok tt, o, mkWorld (log w) (rng_pos w) (calls w ++ [c])).

(** The instance as [object.__new__] leaves it, before any [__init__]. *)
Definition new (g : gate) : obj :=
  mkObj g "" None None None None false [].

(** ** Initial parameter values *)

(** [init_params] when it is not [None]: a list ([isinstance(init_params,
    list)]) or anything else, which [constant_] takes as one number. *)
Inductive init_value : Type :=
| InitScalar (v : R)
| InitList (l : list R).

(** The arguments of [Operation.__init__]. *)
Record op_args : Type := mkArgs {
  a_has_params : bool;
  a_trainable : bool;
  a_init_params : option init_value;
  a_n_wires : option Z
}.

(** The defaults of [Operation.__init__]. *)
Definition default_args : op_args := mkArgs false false None None.

(** ** Writing into a tensor *)

(** [torch.nn.init.constant_(t[:, k], v)] on the rows of [t] *)
Fixpoint set_nth (k : nat) (v : R) (r : list R) : list R :=
  match r, k with
  | [], _ => []
  | _ :: r', O => v :: r'
  | x :: r', Datatypes.S k' => x :: set_nth k' v r'
  end.

Definition fill_col (k : nat) (v : R) (d : list (list R)) : list (list R) :=
  map (set_nth k v) d.

(** [torch.nn.init.constant_(t, v)] *)
Definition fill_all (v : R) (d : list (list R)) : list (list R) :=
  map (map (fun _ => v)) d.

(** [torch.nn.init.uniform_(t, 0, 2 * np.pi)]: every cell takes the next
    draw; returns the position of the stream afterwards. *)
Fixpoint fill_uniform (draw : nat -> R) (pos : nat) (d : list (list R))
  : list (list R) * nat :=
  match d with
  | [] => ([], pos)
  | r :: d' =>
      let row := map (fun k => draw (pos + k)) (seq 0 (List.length r)) in
      let (rest, pos') := fill_uniform draw (pos + List.length r) d' in
      (row :: rest, pos')
  end.

Section Operators.

Context (tqf : Functional) (torch : Torch).

(** ** class Operator *)

(** [Operator.__init__] *)
Definition Operator__init__ : M unit :=
  Module__init__ ;;
  set_params None ;;
  set_n_wires None ;;
  g <- gets cls ;;
  set__name (class_name g).

(** The [name] property and its setter. *)
Definition name : M string := gets _name.

Definition name_setter (value : string) : M unit := set__name value.

(** [Operator._matrix] and [Operator._eigvals], the defaults. *)
Definition Operator__matrix : result Matrix := Raise NotImplementedError.

Definition Operator__eigvals : result Vector := Raise NotImplementedError.

(** ** class Operation: parameters *)

(** [Operation.build_params] *)
Definition build_params (trainable_ : bool) : M tensor :=
  g <- gets cls ;;
  let parameters :=
    mkTensor [map (empty_cell torch) (seq 0 (num_params g))]
             (if trainable_ then true else false) true in
  nm <- name ;;
  register_parameter (nm ++ "_params") ;;
  ret parameters.

(** [torch.nn.init.constant_(self.params[:, k], init_param)] *)
Definition constant_column (k : nat) (init_param : R) : M unit :=
  p <- gets params ;;
  match p with
  | None => raise TypeError                  (* None[:, k] *)
  | Some t =>
      if (k <? ncols (data t))%nat
      then set_params
             (Some (with_data t (fill_col k init_param (data t))))
      else raise IndexError
  end.

(** The loop [for k, init_param in enumerate(init_params)], from index
    [k] on. *)
Fixpoint reset_enumerate (k : nat) (init_params : list R) : M unit :=
  match init_params with
  | [] => ret tt
  | init_param :: rest =>
      constant_column k init_param ;;
      reset_enumerate (Datatypes.S k) rest
  end.

(** [torch.nn.init.constant_(self.params, init_params)] *)
Definition constant_all (v : R) : M unit :=
  p <- gets params ;;
  match p with
  | None => raise AttributeError
  | Some t =>
      set_params (Some (with_data t (fill_all v (data t))))
  end.

(** [torch.nn.init.uniform_(self.params, 0, 2 * np.pi)] *)
Definition uniform_all : M unit :=
  fun o w =>
    match params o with
    | None => (Raise AttributeError, o, w)
    | Some t =>
        let (d, pos) :=
          fill_uniform (uniform_draw torch) (rng_pos w) (data t) in
        set_params (Some (with_data t d)) o
                   (mkWorld (log w) pos (calls w))
    end.

(** [Operation.reset_params] *)
Definition reset_params (init_params : option init_value) : M unit :=
  match init_params with
  | Some (InitList l) => reset_enumerate 0 l
  | Some (InitScalar v) => constant_all v
  | None => uniform_all
  end.

(** [Operation.__init__] *)
Definition Operation__init__ (a : op_args) : M unit :=
  Operator__init__ ;;
  hp <- (if a_trainable a && negb (a_has_params a)
         then logger (Warning
                ("Module must have parameters to be trainable; "
                 ++ "Switched 'has_params' to True.")) ;;
              ret true
         else ret (a_has_params a)) ;;
  set_has_params hp ;;
  set_trainable (a_trainable a) ;;
  self_has_params <- get_attr has_params ;;
  (if self_has_params : bool
   then self_trainable <- get_attr trainable ;;
        p <- build_params self_trainable ;;
        setattr_params (Some p) ;;
        reset_params (a_init_params a)
   else ret tt) ;;
  set_n_wires (a_n_wires a).

(** ** class Observable *)

(** [Observable.__init__]: [super().__init__()] is [Operation.__init__]
    with its defaults when the class also derives from [Operation]
    (Hadamard), [Operator.__init__] otherwise. *)
Definition Observable__init__ : M unit :=
  g <- gets cls ;;
  match bases g with
  | ObservableOperation => Operation__init__ default_args
  | _ => Operator__init__
  end ;;
  set_return_type.

(** Instantiating a class, [G()] ([None]) or [G(...)] with the arguments
    of [Some].  [Observable.__init__] takes no argument: the classes that
    list [Observable] first reject any. *)
Definition construct (g : gate) (args : option op_args) (w : world)
  : result obj * world :=
  let init :=
    match bases g, args with
    | (ObservableOnly | ObservableOperation), None => Observable__init__
    | (ObservableOnly | ObservableOperation), Some _ => raise TypeError
    | _, None => Operation__init__ default_args
    | _, Some a => Operation__init__ a
    end in
  match init (new g) w with
  | (Ok _, o, w') => (Ok o, w')
  | (Raise e, _, w') => (Raise e, w')
  end.

(** Instantiating a class from inside a method. *)
Definition instantiate (g : gate) (args : option op_args) : M obj :=
  fun o w => let (r, w') := construct g args w in (r, o, w').

(** ** Class attributes of the catalogue *)

(** The class attribute [matrix = mat_dict[...]] of the classes that have
    one.  In those classes it hides the [matrix] property of the base. *)
Definition matrix_attr (g : gate) : option Matrix :=
  match g with
  | Hadamard => Some (mat_dict tqf "hadamard")
  | PauliX => Some (mat_dict tqf "paulix")
  | PauliY => Some (mat_dict tqf "pauliy")
  | PauliZ => Some (mat_dict tqf "pauliz")
  | S => Some (mat_dict tqf "s")
  | T => Some (mat_dict tqf "t")
  | SX => Some (mat_dict tqf "sx")
  | CNOT => Some (mat_dict tqf "cnot")
  | CZ => Some (mat_dict tqf "cz")
  | CY => Some (mat_dict tqf "cy")
  | SWAP => Some (mat_dict tqf "swap")
  | CSWAP => Some (mat_dict tqf "cswap")
  | Toffoli => Some (mat_dict tqf "toffoli")
  | _ => None
  end.

(** The class attribute [eigvals = ...] of the classes that have one; it
    hides the [eigvals] property in the same way. *)
Definition eigvals_attr (g : gate) : option Vector :=
  match g with
  | Hadamard | PauliX | PauliY | PauliZ => Some [c_one; c_neg c_one]
  | S | T | SX => Some [c_one; c_i]
  | CZ => Some [c_one; c_one; c_one; c_neg c_one]
  | _ => None
  end.

(** [cls.matrix] and [cls.eigvals] read inside a classmethod. *)
Definition cls_matrix (g : gate) : result Matrix :=
  match matrix_attr g with
  | Some m => Ok m
  | None => Raise AttributeError
  end.

Definition cls_eigvals (g : gate) : result Vector :=
  match eigvals_attr g with
  | Some v => Ok v
  | None => Raise AttributeError
  end.

(** ** The classmethods [_eigvals] and [_matrix], class by class *)

(** [DiagonalOperation._eigvals], what the diagonal classes inherit when
    they define none. *)
Definition DiagonalOperation__eigvals : result Vector :=
  Raise NotImplementedError.

(** [cls._eigvals(params)] *)
Definition _eigvals (g : gate) (params_ : option tensor) : result Vector :=
  match g with
  | Hadamard | PauliX | PauliY | PauliZ | S | T | SX | CZ => cls_eigvals g
  | RZ | PhaseShift | MultiRZ | U1 => DiagonalOperation__eigvals
  | CNOT | CY | SWAP | CSWAP | Toffoli
  | RX | RY | Rot | CRX | CRY | CRZ | CRot => Operator__eigvals
  end.

(** [DiagonalOperation._matrix]: [torch.diag(cls._eigvals(params))].
    Every diagonal class of the catalogue overrides it. *)
Definition DiagonalOperation__matrix (g : gate) (params_ : option tensor)
  : result Matrix :=
  match _eigvals g params_ with
  | Ok v => Ok (diag v)
  | Raise e => Raise e
  end.

(** [cls._matrix(params)] or [cls._matrix(params, n_wires)]: the second
    positional argument is [Given] when the caller writes it.  Only
    [MultiRZ._matrix] has it, and there it is required. *)
Definition _matrix (g : gate) (params_ : option tensor)
  (n_wires_ : pyarg (option Z)) : result Matrix :=
  match g, n_wires_ with
  | MultiRZ, Given n => multirz_matrix tqf params_ n
  | MultiRZ, Missing => Raise TypeError
  | _, Given _ => Raise TypeError
  | (Hadamard | PauliX | PauliY | PauliZ | S | T | SX
     | CNOT | CZ | CY | SWAP | CSWAP | Toffoli), Missing => cls_matrix g
  | RX, Missing => rx_matrix tqf params_
  | RY, Missing => ry_matrix tqf params_
  | RZ, Missing => rz_matrix tqf params_
  | PhaseShift, Missing => phaseshift_matrix tqf params_
  | Rot, Missing => rot_matrix tqf params_
  | CRX, Missing => crx_matrix tqf params_
  | CRY, Missing => cry_matrix tqf params_
  | CRZ, Missing => crz_matrix tqf params_
  | CRot, Missing => crot_matrix tqf params_
  | U1, Missing => u1_matrix tqf params_
  end.

(** ** Reading [matrix] and [eigvals] on an instance *)

(** [self.matrix]: the class attribute where the class has one, else the
    property of [Operator]/[Operation], [self._matrix(self.params)]. *)
Definition matrix : M Matrix :=
  g <- gets cls ;;
  match matrix_attr g with
  | Some m => ret m
  | None =>
      p <- gets params ;;
      lift (_matrix g p Missing)
  end.

(** [self.eigvals]: the class attribute where the class has one, else the
    property, [self._eigvals(self.params)]. *)
Definition eigvals : M Vector :=
  g <- gets cls ;;
  match eigvals_attr g with
  | Some v => ret v
  | None =>
      p <- gets params ;;
      lift (_eigvals g p)
  end.

(** [Operator._get_unitary_matrix] *)
Definition _get_unitary_matrix : M Matrix := matrix.

(** ** [Operator.forward] *)

Definition forward (q_device : QuantumDevice) (wires : list Z)
  (params_ : option tensor) : M unit :=
  nm <- name ;;
  holds <- (if py_in nm fixed_ops
            then ret true
            else hp <- get_attr has_params ;;
                 ret (xorb hp (is_some params_))) ;;
  (if holds : bool
   then ret tt
   else logger (Exception
          ("Parameterized gate either has its "
           ++ "own parameters or has input as parameters")) ;;
        raise AssertionError) ;;
  match params_ with
  | Some p => setattr_params (Some p)
  | None => ret tt
  end ;;
  self_params <- gets params ;;
  self_n_wires <- gets n_wires ;;
  g <- gets cls ;;
  match self_params, self_n_wires with
  | None, None =>
      call_kernel (mkCall (func g) q_device wires Missing Missing)
  | None, Some n =>
      call_kernel (mkCall (func g) q_device wires Missing (Given n))
  | Some p, None =>
      call_kernel (mkCall (func g) q_device wires (Given p) Missing)
  | Some p, Some n =>
      call_kernel (mkCall (func g) q_device wires (Given p) (Given n))
  end.

(** ** [diagonalizing_gates] *)

(** [Observable.diagonalizing_gates], the default. *)
Definition Observable_diagonalizing_gates : M (list obj) :=
  raise NotImplementedError.

(** [self.diagonalizing_gates()]: the four observables override the
    default; the other classes have no such method. *)
Definition diagonalizing_gates : M (list obj) :=
  g <- gets cls ;;
  match g with
  | Hadamard =>
      ry <- instantiate RY
              (Some (mkArgs true false (Some (InitScalar (- PI / 4)%R))
                            None)) ;;
      ret [ry]
  | PauliX =>
      h <- instantiate Hadamard None ;;
      ret [h]
  | PauliY =>
      z <- instantiate PauliZ None ;;
      s <- instantiate S None ;;
      h <- instantiate Hadamard None ;;
      ret [z; s; h]
  | PauliZ => ret []
  | _ => raise AttributeError
  end.

End Operators.

(** ** A reference [pytorch_quantum.functional]

    The module [pytorch_quantum/functional.py] is the collaborator behind
    [tqf] and [mat_dict].  The definitions of this part give it the
    content that the specification states (its sections 4.1 and 4.5), for
    the evaluations on concrete gates further down.  The theorems that
    hold for every collaborator are stated over an arbitrary
    [Functional]. *)

Module Reference.

Local Open Scope R_scope.

Definition c_scale (x : R) (a : C) : C := (x * fst a, x * snd a).

Definition c_sum (l : list C) : C := fold_right c_add c_zero l.

Definition column (j : nat) (m : Matrix) : list C :=
  map (fun row => nth j row c_zero) m.

Definition dot (u v : list C) : C :=
  c_sum (map (fun p => c_mul (fst p) (snd p)) (combine u v)).

(** The matrix product. *)
Definition mmul (a b : Matrix) : Matrix :=
  map (fun row => map (fun j => dot row (column j b))
                      (seq 0 (List.length row))) a.

(** The matrix with a one in column [l_i] of row [i]. *)
Definition permutation (l : list nat) : Matrix :=
  map (fun c => map (fun j => if Nat.eqb j c then c_one else c_zero)
                    (seq 0 (List.length l))) l.

(** The controlled version of a 2x2 matrix: the identity on the control-0
    subspace and the matrix on the control-1 subspace. *)
Definition controlled (u : Matrix) : Matrix :=
  [ [c_one; c_zero; c_zero; c_zero];
    [c_zero; c_one; c_zero; c_zero] ]
  ++ map (fun row => c_zero :: c_zero :: row) u.

(** Modelled from the spec: the table [mat_dict] of
    [pytorch_quantum.functional], the exact unitary matrices of the fixed
    gates (section 4.1). *)
Definition mat_dict (key : string) : Matrix :=
  if String.eqb key "hadamard" then
    [ [c_re (/ sqrt 2); c_re (/ sqrt 2)];
      [c_re (/ sqrt 2); c_re (- / sqrt 2)] ]
  else if String.eqb key "paulix" then permutation [1; 0]%nat
  else if String.eqb key "pauliy" then
    [ [c_zero; c_neg c_i]; [c_i; c_zero] ]
  else if String.eqb key "pauliz" then diag [c_one; c_neg c_one]
  else if String.eqb key "s" then diag [c_one; c_i]
  else if String.eqb key "t" then diag [c_one; c_expi (PI / 4)]
  else if String.eqb key "sx" then
    [ [(/ 2, / 2); (/ 2, - / 2)]; [(/ 2, - / 2); (/ 2, / 2)] ]
  else if String.eqb key "cnot" then permutation [0; 1; 3; 2]%nat
  else if String.eqb key "cz" then
    diag [c_one; c_one; c_one; c_neg c_one]
  else if String.eqb key "cy" then
    controlled [ [c_zero; c_neg c_i]; [c_i; c_zero] ]
  else if String.eqb key "swap" then permutation [0; 2; 1; 3]%nat
  else if String.eqb key "cswap" then
    permutation [0; 1; 2; 3; 4; 6; 5; 7]%nat
  else if String.eqb key "toffoli" then
    permutation [0; 1; 2; 3; 4; 5; 7; 6]%nat
  else [].

(** The closed forms of section 4.5, on the angle. *)
Definition RX_of (theta : R) : Matrix :=
  [ [c_re (cos (theta / 2)); (0, - sin (theta / 2))];
    [(0, - sin (theta / 2)); c_re (cos (theta / 2))] ].

Definition RY_of (theta : R) : Matrix :=
  [ [c_re (cos (theta / 2)); c_re (- sin (theta / 2))];
    [c_re (sin (theta / 2)); c_re (cos (theta / 2))] ].

Definition RZ_eigvals (theta : R) : Vector :=
  [c_expi (- theta / 2); c_expi (theta / 2)].

Definition RZ_of (theta : R) : Matrix := diag (RZ_eigvals theta).

Definition PhaseShift_eigvals (phi : R) : Vector := [c_one; c_expi phi].

Definition PhaseShift_of (phi : R) : Matrix := diag (PhaseShift_eigvals phi).

Definition Rot_of (phi theta omega : R) : Matrix :=
  mmul (RZ_of omega) (mmul (RY_of theta) (RZ_of phi)).

(** The parity of the binary weight of [k], read over [bits] bits. *)
Fixpoint odd_weight (bits k : nat) : bool :=
  match bits with
  | O => false
  | Datatypes.S b => xorb (Nat.odd k) (odd_weight b (Nat.div2 k))
  end.

Definition MultiRZ_eigvals (theta : R) (n : nat) : Vector :=
  map (fun k => if odd_weight n k
                then c_expi (theta / 2) else c_expi (- theta / 2))
      (seq 0 (2 ^ n)).

Definition MultiRZ_of (theta : R) (n : nat) : Matrix :=
  diag (MultiRZ_eigvals theta n).

(** The builders read a parameter tensor of one batch row; the
    specification describes no other shape, and no call on [None]. *)
Definition one_param {A} (f : R -> A) (p : option tensor) : result A :=
  match p with
  | Some (mkTensor [[theta]] _ _) => Ok (f theta)
  | _ => Raise TypeError
  end.

Definition three_params {A} (f : R -> R -> R -> A) (p : option tensor)
  : result A :=
  match p with
  | Some (mkTensor [[phi; theta; omega]] _ _) => Ok (f phi theta omega)
  | _ => Raise TypeError
  end.

(** Modelled from the spec: the matrix builders [rx_matrix] ...
    [u1_matrix] and the table [mat_dict] of [pytorch_quantum.functional],
    with the formulas of section 4.5. *)
Definition tqf : Functional :=
  mkFunctional
    mat_dict
    (one_param RX_of)
    (one_param RY_of)
    (one_param RZ_of)
    (one_param PhaseShift_of)
    (three_params Rot_of)
    (fun p n =>
       match n with
       | Some (Zpos k) =>
           one_param (fun theta => MultiRZ_of theta (Pos.to_nat k)) p
       | _ => Raise TypeError
       end)
    (one_param (fun theta => controlled (RX_of theta)))
    (one_param (fun theta => controlled (RY_of theta)))
    (one_param (fun theta => controlled (RZ_of theta)))
    (three_params (fun phi theta omega =>
                     controlled (Rot_of phi theta omega)))
    (one_param PhaseShift_of).

(** Memory that reads [e] in every fresh cell and a generator that draws
    [u] every time. *)
Definition torch (e u : R) : Torch := mkTorch (fun _ => e) (fun _ => u).

End Reference.

(** ** Reading the result of a method call *)

Definition outcome {A} (x : result A * obj * world) : result A :=
  fst (fst x).

Definition self_after {A} (x : result A * obj * world) : obj :=
  snd (fst x).

Definition world_after {A} (x : result A * obj * world) : world := snd x.

(** A keyword argument that is written only when the value is not
    [None]. *)
Definition keyword {A} (v : option A) : pyarg A :=
  match v with
  | Some a => Given a
  | None => Missing
  end.

(** Whether [nn.Module] refuses to store the call-time parameters: they
    are a plain tensor and [self.params] is a registered [nn.Parameter]. *)
Definition store_refused (o : obj) (params_ : option tensor) : bool :=
  match params_, params o with
  | Some t, Some s => negb (is_parameter t) && is_parameter s
  | _, _ => false
  end.

(** What [self.params] holds once [forward] has stored the call-time
    parameters, if any. *)
Definition params_at_dispatch (o : obj) (params_ : option tensor)
  : option tensor :=
  match params_ with
  | Some p => Some p
  | None => params o
  end.

(** ** Derived notions *)

(** [self] with [self.params] replaced, and with [self.n_wires]
    replaced. *)
Definition with_params (o : obj) (v : option tensor) : obj :=
  mkObj (cls o) (_name o) v (n_wires o) (has_params o) (trainable o)
        (return_type o) (registered o).

Definition with_n_wires (o : obj) (v : option Z) : obj :=
  mkObj (cls o) (_name o) (params o) v (has_params o) (trainable o)
        (return_type o) (registered o).

(** What the loop of [reset_params] writes into one row, from index [k]
    on. *)
Fixpoint overwrite (k : nat) (l : list R) (r : list R) : list R :=
  match l with
  | [] => r
  | v :: l' => overwrite (Datatypes.S k) l' (set_nth k v r)
  end.

(** The diagnostic of [Operation.__init__]. *)
Definition trainable_warning : log_record :=
  Warning ("Module must have parameters to be trainable; "
           ++ "Switched 'has_params' to True.").

(** The world after the diagnostic of [Operation.__init__], if it is
    emitted. *)
Definition warned (a : op_args) (w : world) : world :=
  if a_trainable a && negb (a_has_params a)
  then mkWorld (log w ++ [trainable_warning]) (rng_pos w) (calls w)
  else w.

(** The row that [torch.empty] hands to [build_params]. *)
Definition fresh_row (torch : Torch) (g : gate) : list R :=
  map (empty_cell torch) (seq 0 (num_params g)).

(** The instance of [g] when [build_params] has returned and the tensor
    is stored: one row of [num_params] cells as [torch.empty] found
    them. *)
Definition allocated (torch : Torch) (g : gate) (trainable_ : bool) : obj :=
  mkObj g (class_name g)
        (Some (mkTensor [map (empty_cell torch) (seq 0 (num_params g))]
                        trainable_ true))
        None (Some true) (Some trainable_) false
        [(class_name g ++ "_params")%string].

(** The instance of [g] built without parameters. *)
Definition parameterless (g : gate) (n_wires_ : option Z) : obj :=
  mkObj g (class_name g) None n_wires_ (Some false) (Some false) false [].

(** A parameterised instance of [g] holding the rows [d]. *)
Definition initialised (g : gate) (trainable_ : bool)
  (n_wires_ : option Z) (d : list (list R)) : obj :=
  mkObj g (class_name g) (Some (mkTensor d trainable_ true)) n_wires_
        (Some true) (Some trainable_) false
        [(class_name g ++ "_params")%string].

(** The row an instance holds when its constructor returns. *)
Definition initial_row (torch : Torch) (g : gate) (w : world)
  (init : option init_value) : list R :=
  match init with
  | None =>
      map (fun k => uniform_draw torch (rng_pos w + k))
          (seq 0 (num_params g))
  | Some (InitScalar v) => repeat v (num_params g)
  | Some (InitList l) => l ++ skipn (List.length l) (fresh_row torch g)
  end.

(** ** Instances used in the examples *)

(** A tensor passed at call time. *)
Definition p0 : tensor := mkTensor [[1%R]] false false.

(** [Hadamard()] *)
Definition hadamard0 : obj :=
  mkObj Hadamard "Hadamard" None None (Some false) (Some false) true [].

(** [PauliY()] *)
Definition pauliy0 : obj :=
  mkObj PauliY "PauliY" None None None None true [].

(** [PauliZ()] *)
Definition pauliz0 : obj :=
  mkObj PauliZ "PauliZ" None None None None true [].

(** [S()] *)
Definition s0 : obj :=
  mkObj S "S" None None (Some false) (Some false) false [].

(** [S(has_params=True)]: the class has no parameter, the tensor has one
    row and no column. *)
Definition s_with_params : obj :=
  mkObj S "S" (Some (mkTensor [[]] false true)) None
        (Some true) (Some false) false ["S_params"].

(** [T()] *)
Definition t_gate : obj :=
  mkObj T "T" None None (Some false) (Some false) false [].

(** [RX()] *)
Definition rx_bare : obj :=
  mkObj RX "RX" None None (Some false) (Some false) false [].

(** [RX(has_params=True, init_params=0.3)] *)
Definition rx_stored : obj :=
  mkObj RX "RX" (Some (mkTensor [[(3 / 10)%R]] false true)) None
        (Some true) (Some false) false ["RX_params"].

(** [RX(has_params=True, init_params=0.3, n_wires=1)] *)
Definition rx_one_wire : obj :=
  mkObj RX "RX" (Some (mkTensor [[(3 / 10)%R]] false true)) (Some 1%Z)
        (Some true) (Some false) false ["RX_params"].

(** [RY(has_params=True, init_params=[0.5])], with the other arguments
    free. *)
Definition ry_half (trainable_ : bool) (n_wires_ : option Z) : obj :=
  initialised RY trainable_ n_wires_ [[(1 / 2)%R]].

(** [RZ(has_params=True, init_params=0.3)] *)
Definition rz_stored : obj :=
  mkObj RZ "RZ" (Some (mkTensor [[(3 / 10)%R]] false true)) None
        (Some true) (Some false) false ["RZ_params"].

(** [MultiRZ(has_params=True, init_params=0.3)], no [n_wires] given *)
Definition multirz_no_wires : obj :=
  mkObj MultiRZ "MultiRZ" (Some (mkTensor [[(3 / 10)%R]] false true)) None
        (Some true) (Some false) false ["MultiRZ_params"].

(** [MultiRZ(has_params=True, init_params=0.3, n_wires=2)] *)
Definition multirz_two_wires : obj :=
  mkObj MultiRZ "MultiRZ" (Some (mkTensor [[(3 / 10)%R]] false true))
        (Some 2%Z) (Some true) (Some false) false ["MultiRZ_params"].

(** ** Notions for the further properties *)

(** [self] after [self.name = v]. *)
Definition with_name (o : obj) (v : string) : obj :=
  mkObj (cls o) v (params o) (n_wires o) (has_params o) (trainable o)
        (return_type o) (registered o).

(** The shape of a tensor, as the lengths of its rows, and its number of
    cells. *)
Definition shape (d : list (list R)) : list nat :=
  map (@List.length R) d.

Definition numel (d : list (list R)) : nat :=
  fold_right (fun r n => List.length r + n) 0 d.

(** The message that [forward] logs when its assertion fails. *)
Definition conflict_message : log_record :=
  Exception ("Parameterized gate either has its "
             ++ "own parameters or has input as parameters").

(** The kernel call that [forward] makes for [o] once [self.params] holds
    [v]. *)
Definition dispatch (o : obj) (q_device : QuantumDevice) (wires : list Z)
  (v : option tensor) : kernel_call :=
  mkCall (func (cls o)) q_device wires (keyword v) (keyword (n_wires o)).

(** [PauliX()] after [name = "X"], and [RX()] after [name = "S"]. *)
Definition paulix_renamed : obj :=
  mkObj PauliX "X" None None None None true [].

Definition rx_named_S : obj :=
  mkObj RX "S" None None (Some false) (Some false) false [].

(** Another tensor passed at call time, and an [nn.Parameter] passed at
    call time. *)
Definition p1 : tensor := mkTensor [[2%R]] false false.

Definition q0 : tensor := mkTensor [[1%R]] true true.

(** * Properties *)

Ltac unfold_monad :=
  unfold bind, ret, raise, lift, gets, get_attr, modify, logger,
    call_kernel, setattr_params, Module__init__, set_params, set_n_wires,
    set__name, set_has_params, set_trainable, set_return_type,
    register_parameter, name in *.

Ltac break_hyps :=
  repeat match goal with
         | H : _ /\ _ |- _ => destruct H
         | H : _ \/ _ |- _ => destruct H
         | H : exists _, _ |- _ => destruct H
         end.

(** ** The definitions on small inputs *)

Example diag_two (a b : C) : diag [a; b] = [[a; c_zero]; [c_zero; b]].
Proof. reflexivity. Qed.

Example fill_col_second :
  fill_col 1 9%R [[1%R; 2%R; 3%R]; [4%R; 5%R; 6%R]]
  = [[1%R; 9%R; 3%R]; [4%R; 9%R; 6%R]].
Proof. reflexivity. Qed.

Example overwrite_two :
  overwrite 0 [8%R; 9%R] [1%R; 2%R; 3%R] = [8%R; 9%R; 3%R].
Proof. reflexivity. Qed.

Example fill_uniform_counts (draw : nat -> R) :
  fill_uniform draw 5 [[0%R; 0%R]; [0%R; 0%R]]
  = ([[draw 5; draw 6]; [draw 7; draw 8]], 9).
Proof. reflexivity. Qed.

Example Rot_is_not_fixed :
  py_in "Rot" fixed_ops = false /\ py_in "PauliY" fixed_ops = true.
Proof. split; reflexivity. Qed.

(** Two consistency properties that the specification lists for the
    collaborator hold of the reference one: MultiRZ on one wire is RZ, and
    U1 is PhaseShift. *)
Example Reference_MultiRZ_one_wire (theta : R) :
  Reference.MultiRZ_of theta 1 = Reference.RZ_of theta.
Proof. reflexivity. Qed.

Example Reference_U1_is_PhaseShift (p : option tensor) :
  u1_matrix Reference.tqf p = phaseshift_matrix Reference.tqf p.
Proof. reflexivity. Qed.

(** ** The validation of [forward] *)

Lemma hadamard0_constructed (torch : Torch) :
  construct torch Hadamard None world0 = (Ok hadamard0, world0).
Proof. reflexivity. Qed.

Lemma rx_stored_constructed (torch : Torch) :
  construct torch RX
    (Some (mkArgs true false (Some (InitScalar (3 / 10)%R)) None)) world0
  = (Ok rx_stored, world0).
Proof. reflexivity. Qed.

Lemma rx_bare_constructed (torch : Torch) :
  construct torch RX None world0 = (Ok rx_bare, world0).
Proof. reflexivity. Qed.

Lemma s_with_params_constructed (torch : Torch) :
  construct torch S (Some (mkArgs true false None None)) world0
  = (Ok s_with_params, world0).
Proof. reflexivity. Qed.

(** [S(has_params=True)] given a plain tensor at call time: the check
    passes on the name, the assignment over the registered parameter is
    refused, nothing is stored, logged or called. *)
Example forward_refuses_plain_tensor_over_parameter :
  forward 0 [0%Z] (Some p0) s_with_params world0
  = (Raise TypeError, s_with_params, world0).
Proof. reflexivity. Qed.

(** The same instance accepts an [nn.Parameter] at call time, which
    replaces the stored one under the key ['params']. *)
Example forward_accepts_parameter_over_parameter :
  outcome (forward 0 [0%Z] (Some q0) s_with_params world0) = Ok tt /\
  params (self_after (forward 0 [0%Z] (Some q0) s_with_params world0))
  = Some q0 /\
  _parameters (self_after (forward 0 [0%Z] (Some q0) s_with_params world0))
  = ["S_params"; "params"].
Proof. repeat split. Qed.

(** C1, as stated, fails: [Hadamard()] is in the Fixed set and, called
    with call-time parameters, also satisfies "hasParams XOR params
    supplied"; both alternatives hold, not exactly one, and yet the call
    is accepted, the parameters are stored and the kernel receives
    them. *)
Lemma forward_accepts_fixed_gate_with_params :
  py_in (_name hadamard0) fixed_ops = true /\
  xorb false (is_some (Some p0)) = true /\
  forward 0 [0%Z] (Some p0) hadamard0 world0
  = (Ok tt,
     mkObj Hadamard "Hadamard" (Some p0) None (Some false) (Some false)
           true [],
     mkWorld [] 0 [mkCall "hadamard" 0 [0%Z] (Given p0) Missing]).
Proof. repeat split. Qed.

(** C1, amended: [forward] raises [AssertionError] exactly when the name of
    the gate is not in [fixed_ops] and [has_params] equals "params are
    supplied".  When the name is in [fixed_ops] or [has_params] differs
    from "params are supplied", the check passes, and then the call goes
    through to the kernel, except that it raises [TypeError] when it
    brings a plain tensor to an instance whose stored parameters are an
    [nn.Parameter]. *)
Theorem forward_validation :
  forall (q_device : QuantumDevice) (wires : list Z)
         (params_ : option tensor) (o : obj) (w : world),
    (outcome (forward q_device wires params_ o w) = Raise AssertionError
     <-> py_in (_name o) fixed_ops = false
         /\ has_params o = Some (is_some params_))
    /\
    (outcome (forward q_device wires params_ o w) = Ok tt
     <-> (py_in (_name o) fixed_ops = true
          \/ has_params o = Some (negb (is_some params_)))
         /\ store_refused o params_ = false)
    /\
    (outcome (forward q_device wires params_ o w) = Raise TypeError
     <-> (py_in (_name o) fixed_ops = true
          \/ has_params o = Some (negb (is_some params_)))
         /\ store_refused o params_ = true).
Proof.
  intros q_device wires params_ o w.
  destruct o as [c nm ps nw hp tr rt regs].
  unfold forward, outcome, store_refused. unfold_monad. cbn -[py_in].
  destruct (py_in nm fixed_ops) eqn:Hfix;
    destruct hp as [[|]|];
    destruct params_ as [[pd prg [|]]|];
    destruct ps as [[sd srg [|]]|]; destruct nw; cbn;
    (split; [ | split]; split; intros H; break_hyps;
     try discriminate; try congruence; auto).
Qed.

(** The case the specification singles out: RX owning stored parameters
    and given call-time parameters is refused. *)
Lemma forward_validation_witness :
  outcome (forward 0 [0%Z] (Some p0) rx_stored world0)
  = Raise AssertionError /\
  outcome (forward 0 [0%Z] None rx_stored world0) = Ok tt /\
  outcome (forward 0 [0%Z] (Some p0) s_with_params world0)
  = Raise TypeError.
Proof.
  split; [ | split ].
  - apply (proj1 (forward_validation 0 [0%Z] (Some p0) rx_stored world0)).
    split; reflexivity.
  - apply (proj1 (proj2 (forward_validation 0 [0%Z] None rx_stored
                           world0))).
    split; [right; reflexivity | reflexivity].
  - apply (proj2 (proj2 (forward_validation 0 [0%Z] (Some p0)
                           s_with_params world0))).
    split; [left; reflexivity | reflexivity].
Defined.

(** ** [matrix] and [eigvals] *)

(** Reading [matrix] or [eigvals] writes nothing: not [self], not the
    world. *)
Lemma matrix_reads_only (tqf : Functional) (o : obj) (w : world) :
  self_after (matrix tqf o w) = o /\ world_after (matrix tqf o w) = w.
Proof.
  unfold matrix, self_after, world_after. unfold_monad. cbn.
  destruct (matrix_attr tqf (cls o)); cbn; auto.
Qed.

Lemma eigvals_reads_only (o : obj) (w : world) :
  self_after (eigvals o w) = o /\ world_after (eigvals o w) = w.
Proof.
  unfold eigvals, self_after, world_after. unfold_monad. cbn.
  destruct (eigvals_attr (cls o)); cbn; auto.
Qed.

(** [S()] and [T()] carry the same class attribute [eigvals]. *)
Lemma S_and_T_share_eigvals (o1 o2 : obj) (w1 w2 : world) :
  cls o1 = S -> cls o2 = T ->
  outcome (eigvals o1 w1) = Ok [c_one; c_i] /\
  outcome (eigvals o2 w2) = Ok [c_one; c_i].
Proof.
  intros H1 H2. unfold eigvals, outcome. unfold_monad. cbn.
  rewrite H1, H2. split; reflexivity.
Qed.

(** So [matrix = diag(eigvals)] can hold for both only if the table has
    the same matrix under ['s'] and ['t'], whatever the table is. *)
Lemma S_and_T_diag_forces_equal_tables
  (tqf : Functional) (o1 o2 : obj) (w : world) :
  cls o1 = S -> cls o2 = T ->
  outcome (matrix tqf o1 w) = DiagonalOperation__matrix S (params o1) ->
  outcome (matrix tqf o2 w) = DiagonalOperation__matrix T (params o2) ->
  mat_dict tqf "s" = mat_dict tqf "t".
Proof.
  intros H1 H2. unfold matrix, outcome, DiagonalOperation__matrix.
  unfold_monad. cbn. rewrite H1, H2. cbn. congruence.
Qed.

Lemma diag_two_inj (a b : C) :
  diag [c_one; a] = diag [c_one; b] -> a = b.
Proof. cbn. intros H. congruence. Qed.

Lemma Ok_inj {A} (a b : A) : Ok a = Ok b -> a = b.
Proof. congruence. Qed.

Lemma c_expi_PI4_is_not_i : c_expi (PI / 4) <> c_i.
Proof.
  unfold c_expi, c_i. intros H. injection H as Hcos _.
  assert (Hpos : (0 < cos (PI / 4))%R).
  { apply cos_gt_0; pose proof PI_RGT_0; lra. }
  lra.
Qed.

(** C2: the code at [T()].  The matrix read on the instance is the table
    entry ['t'], [diag(1, e^{i pi/4})] in the reference table, while the
    eigenvalues are [[1, 1j]], those of S; the matrix that
    [DiagonalOperation._matrix] would derive from them is [diag(1, i)],
    a different one.  On [RZ] the eigenvalues are not available at all,
    so there is nothing to compare the matrix with. *)
Theorem T_matrix_is_not_diag_of_eigvals :
  construct (Reference.torch 0 0) T None world0 = (Ok t_gate, world0) /\
  outcome (matrix Reference.tqf t_gate world0)
  = Ok (diag [c_one; c_expi (PI / 4)]) /\
  outcome (eigvals t_gate world0) = Ok [c_one; c_i] /\
  DiagonalOperation__matrix T (params t_gate) = Ok (diag [c_one; c_i]) /\
  outcome (matrix Reference.tqf t_gate world0)
  <> DiagonalOperation__matrix T (params t_gate) /\
  construct (Reference.torch 0 0) RZ
    (Some (mkArgs true false (Some (InitScalar (3 / 10)%R)) None)) world0
  = (Ok rz_stored, world0) /\
  is_ok (outcome (matrix Reference.tqf rz_stored world0)) = true /\
  outcome (eigvals rz_stored world0) = Raise NotImplementedError.
Proof.
  repeat split.
  intros H.
  change (Ok (diag [c_one; c_expi (PI / 4)]) = Ok (diag [c_one; c_i]))
    in H.
  exact (c_expi_PI4_is_not_i (diag_two_inj _ _ (Ok_inj _ _ H))).
Qed.

(** C3, as stated, fails: CNOT is a Fixed gate and RZ a Diagonal gate, and
    [eigvals] raises [NotImplementedError] on both. *)
Lemma eigvals_fails_on_CNOT_and_RZ :
  (exists o,
      construct (Reference.torch 0 0) CNOT None world0 = (Ok o, world0) /\
      outcome (eigvals o world0) = Raise NotImplementedError) /\
  construct (Reference.torch 0 0) RZ
    (Some (mkArgs true false (Some (InitScalar (3 / 10)%R)) None)) world0
  = (Ok rz_stored, world0) /\
  outcome (eigvals rz_stored world0) = Raise NotImplementedError.
Proof.
  split; [eexists; split; reflexivity | split; reflexivity].
Qed.

(** C3, amended: on an instance of Hadamard, PauliX, PauliY, PauliZ, S, T,
    SX or CZ, [eigvals] returns the vector written in the class; on an
    instance of CNOT, CY, SWAP, CSWAP, Toffoli, RX, RY, Rot, CRX, CRY, CRZ
    or CRot it raises [NotImplementedError].  Nothing is said of RZ,
    PhaseShift, MultiRZ and U1. *)
Theorem eigvals_by_class :
  forall (o : obj) (w : world),
    match cls o with
    | Hadamard | PauliX | PauliY | PauliZ =>
        outcome (eigvals o w) = Ok [c_one; c_neg c_one]
    | S | T | SX => outcome (eigvals o w) = Ok [c_one; c_i]
    | CZ => outcome (eigvals o w) = Ok [c_one; c_one; c_one; c_neg c_one]
    | CNOT | CY | SWAP | CSWAP | Toffoli
    | RX | RY | Rot | CRX | CRY | CRZ | CRot =>
        outcome (eigvals o w) = Raise NotImplementedError
    | RZ | PhaseShift | MultiRZ | U1 => True
    end.
Proof.
  intros o w. unfold eigvals, outcome. unfold_monad. cbn.
  destruct (cls o); cbn; reflexivity || exact I.
Qed.

(** C10: on every MultiRZ instance, whatever its [n_wires] and its
    parameters, reading [matrix] raises [TypeError]: the property calls
    [_matrix] with the parameters alone and [MultiRZ._matrix] also
    requires [n_wires].  The instance is left as it was. *)
Theorem MultiRZ_matrix_always_fails :
  forall (tqf : Functional) (o : obj) (w : world),
    cls o = MultiRZ ->
    outcome (matrix tqf o w) = Raise TypeError /\
    self_after (matrix tqf o w) = o.
Proof.
  intros tqf o w H. unfold matrix, outcome, self_after. unfold_monad.
  cbn. rewrite H. cbn. split; reflexivity.
Qed.

Lemma MultiRZ_matrix_always_fails_witness :
  construct (Reference.torch 0 0) MultiRZ
    (Some (mkArgs true false (Some (InitScalar (3 / 10)%R)) (Some 2%Z)))
    world0
  = (Ok multirz_two_wires, world0) /\
  cls multirz_two_wires = MultiRZ /\
  outcome (matrix Reference.tqf multirz_two_wires world0)
  = Raise TypeError /\
  self_after (matrix Reference.tqf multirz_two_wires world0)
  = multirz_two_wires.
Proof.
  split; [reflexivity | split; [reflexivity | ]].
  apply (MultiRZ_matrix_always_fails Reference.tqf multirz_two_wires
           world0).
  reflexivity.
Defined.

(** ** Resetting the parameters *)

Lemma with_params_same (o : obj) (t : tensor) :
  params o = Some t ->
  with_params o (Some (with_data t (data t))) = o.
Proof.
  destruct o, t; cbn. intros H. unfold with_params; cbn. now rewrite H.
Qed.

Lemma set_nth_length (k : nat) (v : R) (r : list R) :
  List.length (set_nth k v r) = List.length r.
Proof.
  revert k; induction r as [|x r IH]; intros [|k]; cbn; auto.
Qed.

Lemma ncols_fill_col (k : nat) (v : R) (d : list (list R)) :
  ncols (fill_col k v d) = ncols d.
Proof. destruct d as [|r d]; cbn; [reflexivity | apply set_nth_length]. Qed.

Lemma map_overwrite_nil (k : nat) (d : list (list R)) :
  map (overwrite k []) d = d.
Proof. rewrite <- (map_id d) at 2. apply map_ext. reflexivity. Qed.

Lemma map_overwrite_cons (k : nat) (v : R) (l : list R)
  (d : list (list R)) :
  map (overwrite k (v :: l)) d
  = map (overwrite (Datatypes.S k) l) (fill_col k v d).
Proof. unfold fill_col. rewrite map_map. reflexivity. Qed.

Lemma constant_column_eq (k : nat) (v : R) (o : obj) (w : world)
  (t : tensor) :
  params o = Some t ->
  constant_column k v o w
  = if (k <? ncols (data t))%nat
    then (Ok tt,
          with_params o
            (Some (with_data t (fill_col k v (data t)))),
          w)
    else (Raise IndexError, o, w).
Proof.
  intros Hp. unfold constant_column. unfold_monad. cbn -[Nat.ltb].
  rewrite Hp. destruct (k <? ncols (data t))%nat; reflexivity.
Qed.

(** The loop succeeds when the list fits in the columns that remain, and
    then every row is overwritten from index [k] on. *)
Lemma reset_enumerate_fits :
  forall (l : list R) (k : nat) (o : obj) (w : world) (t : tensor),
    params o = Some t ->
    k + List.length l <= ncols (data t) ->
    reset_enumerate k l o w
    = (Ok tt,
       with_params o
         (Some (with_data t (map (overwrite k l) (data t)))),
       w).
Proof.
  induction l as [|v l IH]; intros k o w t Hp Hfit.
  - cbn [reset_enumerate]. unfold ret. rewrite map_overwrite_nil.
    now rewrite (with_params_same o t Hp).
  - cbn [reset_enumerate]. unfold bind.
    rewrite (constant_column_eq k v o w t Hp).
    cbn in Hfit.
    assert (Hk : (k <? ncols (data t))%nat = true)
      by (apply Nat.ltb_lt; lia).
    rewrite Hk.
    erewrite IH; [ | reflexivity | cbn; rewrite ncols_fill_col; lia ].
    rewrite map_overwrite_cons. reflexivity.
Qed.

(** The loop raises [IndexError] when the list runs past the last
    column. *)
Lemma reset_enumerate_overflows :
  forall (l : list R) (k : nat) (o : obj) (w : world) (t : tensor),
    params o = Some t ->
    k <= ncols (data t) ->
    ncols (data t) < k + List.length l ->
    outcome (reset_enumerate k l o w) = Raise IndexError /\
    world_after (reset_enumerate k l o w) = w.
Proof.
  induction l as [|v l IH]; intros k o w t Hp Hk Hover.
  - cbn in Hover. lia.
  - cbn [reset_enumerate]. unfold bind.
    rewrite (constant_column_eq k v o w t Hp).
    destruct (k <? ncols (data t))%nat eqn:E.
    + apply Nat.ltb_lt in E.
      apply (IH (Datatypes.S k) _ w
               (with_data t (fill_col k v (data t))));
        [ reflexivity
        | cbn; rewrite ncols_fill_col; lia
        | cbn in *; rewrite ncols_fill_col; lia ].
    + cbn. split; reflexivity.
Qed.

(** On a row long enough, the loop writes the list over its beginning and
    keeps the rest. *)
Lemma overwrite_row :
  forall (l : list R) (k : nat) (r : list R),
    k + List.length l <= List.length r ->
    overwrite k l r = firstn k r ++ l ++ skipn (k + List.length l) r.
Proof.
  induction l as [|v l IH]; intros k r Hlen.
  - cbn. rewrite Nat.add_0_r. now rewrite firstn_skipn.
  - cbn [overwrite]. cbn in Hlen.
    rewrite IH by (rewrite set_nth_length; lia).
    assert (Hset : forall (r : list R) (k : nat),
               k < List.length r ->
               set_nth k v r = firstn k r ++ v :: skipn (Datatypes.S k) r).
    { clear. induction r as [|x r IHr]; intros [|k] Hk; cbn in *;
        try lia; try reflexivity.
      now rewrite (IHr k) at 1 by lia. }
    rewrite (Hset r k) by lia.
    assert (Hfk : List.length (firstn k r) = k)
      by (rewrite length_firstn; lia).
    replace (Datatypes.S k) with (List.length (firstn k r) + 1) at 1
      by lia.
    rewrite firstn_app_2. cbn [firstn].
    replace (Datatypes.S k + List.length l)
      with (List.length (firstn k r ++ [v]) + List.length l)
      by (rewrite length_app; cbn; lia).
    replace (firstn k r ++ v :: skipn (Datatypes.S k) r)
      with ((firstn k r ++ [v]) ++ skipn (Datatypes.S k) r)
      by (rewrite <- app_assoc; reflexivity).
    rewrite skipn_app.
    rewrite (skipn_all2 (firstn k r ++ [v])) by lia.
    replace (List.length (firstn k r ++ [v]) + List.length l
             - List.length (firstn k r ++ [v]))
      with (List.length l) by lia.
    rewrite skipn_skipn.
    replace (List.length l + Datatypes.S k)
      with (k + List.length (v :: l)) by (cbn; lia).
    cbn [app]. rewrite <- app_assoc. reflexivity.
Qed.

Lemma overwrite_from_start (l r : list R) :
  List.length l <= List.length r ->
  overwrite 0 l r = l ++ skipn (List.length l) r.
Proof. intros H. now rewrite overwrite_row by lia. Qed.

Lemma reset_params_scalar (torch : Torch) (v : R) (o : obj) (w : world)
  (t : tensor) :
  params o = Some t ->
  reset_params torch (Some (InitScalar v)) o w
  = (Ok tt,
     with_params o
       (Some (with_data t (fill_all v (data t)))),
     w).
Proof.
  intros Hp. unfold reset_params, constant_all. unfold_monad. cbn.
  rewrite Hp. reflexivity.
Qed.

Lemma reset_params_uniform (torch : Torch) (o : obj) (w : world)
  (t : tensor) :
  params o = Some t ->
  reset_params torch None o w
  = (Ok tt,
     with_params o
       (Some (with_data t
                (fst (fill_uniform (uniform_draw torch) (rng_pos w)
                                   (data t))))),
     mkWorld (log w)
             (snd (fill_uniform (uniform_draw torch) (rng_pos w) (data t)))
             (calls w)).
Proof.
  intros Hp. unfold reset_params, uniform_all. rewrite Hp.
  destruct (fill_uniform (uniform_draw torch) (rng_pos w) (data t)).
  reflexivity.
Qed.

(** [reset_params] touches no attribute but [params]. *)
Lemma with_params_params (o : obj) : with_params o (params o) = o.
Proof. destruct o; reflexivity. Qed.

Lemma reset_enumerate_frame :
  forall (l : list R) (k : nat) (o : obj) (w : world),
  exists p, self_after (reset_enumerate k l o w) = with_params o p.
Proof.
  induction l as [|v l IH]; intros k o w.
  - exists (params o). cbn. now rewrite with_params_params.
  - cbn [reset_enumerate]. unfold bind.
    destruct (params o) as [t|] eqn:Hp.
    + rewrite (constant_column_eq k v o w t Hp).
      destruct (k <? ncols (data t))%nat.
      * destruct (IH (Datatypes.S k)
                    (with_params o
                       (Some (with_data t (fill_col k v (data t))))) w)
          as [p Hq].
        exists p. rewrite Hq. reflexivity.
      * exists (params o). cbn. now rewrite with_params_params.
    + unfold constant_column. unfold_monad. cbn. rewrite Hp. cbn.
      exists (params o). now rewrite with_params_params.
Qed.

Lemma reset_params_frame (torch : Torch) (init : option init_value)
  (o : obj) (w : world) :
  exists p, self_after (reset_params torch init o w) = with_params o p.
Proof.
  destruct init as [[v|l]|].
  - unfold reset_params, constant_all. unfold_monad. cbn.
    destruct (params o) as [t|] eqn:Hp; cbn.
    + eexists. reflexivity.
    + exists (params o). now rewrite with_params_params.
  - apply reset_enumerate_frame.
  - unfold reset_params, uniform_all.
    destruct (params o) as [t|] eqn:Hp.
    + destruct (fill_uniform (uniform_draw torch) (rng_pos w) (data t)).
      eexists. reflexivity.
    + exists (params o). cbn. now rewrite with_params_params.
Qed.

(** ** Construction *)

(** The classes that list [Observable] first take no constructor
    argument. *)
Lemma construct_Observable_rejects_arguments
  (torch : Torch) (g : gate) (a : op_args) (w : world) :
  is_observable g = true ->
  construct torch g (Some a) w = (Raise TypeError, w).
Proof.
  unfold is_observable, construct. destruct (bases g); intros H;
    try discriminate; reflexivity.
Qed.

Lemma construct_default (torch : Torch) (g : gate) (w : world) :
  is_observable g = false ->
  construct torch g None w = construct torch g (Some default_args) w.
Proof.
  unfold is_observable, construct. destruct (bases g); intros H;
    try discriminate; reflexivity.
Qed.

(** [Operation.__init__], step by step. *)
Lemma construct_Operation
  (torch : Torch) (g : gate) (a : op_args) (w : world) :
  is_observable g = false ->
  construct torch g (Some a) w
  = if a_has_params a || a_trainable a
    then match reset_params torch (a_init_params a)
                 (allocated torch g (a_trainable a)) (warned a w) with
         | (Ok _, o, w') => (Ok (with_n_wires o (a_n_wires a)), w')
         | (Raise e, _, w') => (Raise e, w')
         end
    else (Ok (parameterless g (a_n_wires a)), w).
Proof.
  intros Hobs.
  assert (Hinit : construct torch g (Some a) w
                  = match Operation__init__ torch a (new g) w with
                    | (Ok _, o, w') => (Ok o, w')
                    | (Raise e, _, w') => (Raise e, w')
                    end).
  { unfold is_observable in Hobs. unfold construct.
    destruct (bases g); try discriminate; reflexivity. }
  rewrite Hinit. clear Hinit.
  destruct a as [hp tr init nw]. unfold warned.
  unfold Operation__init__, Operator__init__, build_params, allocated,
    trainable_warning.
  unfold_monad.
  destruct hp, tr; cbn -[reset_params];
    try reflexivity;
    match goal with
    | |- context [reset_params ?t ?i ?o ?w'] =>
        destruct (reset_params t i o w') as [[[[]|e] o'] w'']; reflexivity
    end.
Qed.

(** An instance that declares no parameters holds none when it leaves its
    constructor. *)
Lemma construct_parameterless
  (torch : Torch) (g : gate) (args : option op_args) (w w' : world)
  (o : obj) :
  construct torch g args w = (Ok o, w') ->
  has_params o = Some false ->
  params o = None.
Proof.
  destruct (is_observable g) eqn:Hobs.
  - destruct args as [a|].
    + rewrite construct_Observable_rejects_arguments by exact Hobs.
      discriminate.
    + unfold is_observable in Hobs.
      unfold construct, Observable__init__, Operation__init__,
        Operator__init__.
      unfold_monad.
      destruct (bases g) eqn:Hb; try discriminate; cbn; rewrite Hb; cbn;
        intros H; injection H as <- <-; cbn; congruence.
  - assert (Hgen : forall a, construct torch g (Some a) w = (Ok o, w') ->
                             has_params o = Some false -> params o = None).
    { intros a. rewrite construct_Operation by exact Hobs.
      destruct (a_has_params a || a_trainable a).
      - destruct (reset_params_frame torch (a_init_params a)
                    (allocated torch g (a_trainable a)) (warned a w))
          as [p Hp].
        unfold self_after in Hp.
        destruct (reset_params torch (a_init_params a)
                    (allocated torch g (a_trainable a)) (warned a w))
          as [[[[]|e] o'] w'']; cbn in Hp; subst o';
          intros H; try discriminate.
        injection H as <- <-. cbn. discriminate.
      - intros H. injection H as <- <-. reflexivity. }
    destruct args as [a|].
    + apply Hgen.
    + rewrite construct_default by exact Hobs. apply Hgen.
Qed.

(** [forward] writes [self.params] only by storing the call-time
    parameters, after the validation has passed. *)
Lemma forward_params (q_device : QuantumDevice) (wires : list Z)
  (params_ : option tensor) (o : obj) (w : world) :
  self_after (forward q_device wires params_ o w)
  = match outcome (forward q_device wires params_ o w) with
    | Ok _ => with_params o (params_at_dispatch o params_)
    | Raise _ => o
    end.
Proof.
  destruct o as [c nm ps nw hp tr rt regs].
  unfold forward, outcome, self_after, params_at_dispatch, with_params.
  unfold_monad. cbn -[py_in].
  destruct (py_in nm fixed_ops); destruct hp as [[|]|];
    destruct params_ as [[pd prg [|]]|]; cbn;
    destruct ps as [[sd srg [|]]|], nw; reflexivity.
Qed.

(** C4, as stated, fails: [RX()] declares no parameters and holds none,
    and one [forward] with call-time parameters leaves them stored in
    [self.params]. *)
Lemma forward_stores_call_time_params :
  construct (Reference.torch 0 0) RX None world0 = (Ok rx_bare, world0) /\
  has_params rx_bare = Some false /\
  params rx_bare = None /\
  forward 0 [0%Z] (Some p0) rx_bare world0
  = (Ok tt,
     mkObj RX "RX" (Some p0) None (Some false) (Some false) false [],
     mkWorld [] 0 [mkCall "rx" 0 [0%Z] (Given p0) Missing]).
Proof. repeat split. Qed.

(** C4, amended: a gate that leaves its constructor with
    [has_params = False] holds no parameters at that point; reading
    [matrix] or [eigvals] leaves the instance as it is; and [forward],
    when it returns, has replaced [self.params] by the call-time
    parameters if there were any and otherwise left it; when it raises,
    at the check or at the assignment (a plain tensor brought to an
    instance whose parameters are an [nn.Parameter]), [self.params] is
    what it was. *)
Theorem params_written_by_reset_and_forward_only :
  forall (torch : Torch) (tqf : Functional) (g : gate)
         (args : option op_args) (w w' : world) (o : obj),
    construct torch g args w = (Ok o, w') ->
    has_params o = Some false ->
    params o = None /\
    (forall (o1 : obj) (w1 : world),
        self_after (matrix tqf o1 w1) = o1 /\
        self_after (eigvals o1 w1) = o1) /\
    (forall (q_device : QuantumDevice) (wires : list Z)
            (params_ : option tensor) (o1 : obj) (w1 : world),
        params (self_after (forward q_device wires params_ o1 w1))
        = match outcome (forward q_device wires params_ o1 w1) with
          | Ok _ => params_at_dispatch o1 params_
          | Raise _ => params o1
          end).
Proof.
  intros torch tqf g args w w' o Hc Hhp. split; [ | split ].
  - exact (construct_parameterless torch g args w w' o Hc Hhp).
  - intros o1 w1. split.
    + apply matrix_reads_only.
    + apply eigvals_reads_only.
  - intros q_device wires params_ o1 w1. rewrite forward_params.
    destruct (outcome (forward q_device wires params_ o1 w1));
      reflexivity.
Qed.

Lemma params_written_by_reset_and_forward_only_witness :
  params rx_bare = None /\
  self_after (matrix Reference.tqf rx_stored world0) = rx_stored /\
  params (self_after (forward 0 [0%Z] None rx_stored world0))
  = params rx_stored /\
  params (self_after (forward 0 [0%Z] (Some p0) rx_bare world0))
  = Some p0 /\
  params (self_after (forward 0 [0%Z] (Some p0) s_with_params world0))
  = params s_with_params.
Proof.
  destruct (params_written_by_reset_and_forward_only
              (Reference.torch 0 0) Reference.tqf RX None world0 world0
              rx_bare (rx_bare_constructed _) eq_refl)
    as (Hnone & Hread & Hfwd).
  split; [exact Hnone | split; [ | split; [ | split ]]].
  - exact (proj1 (Hread rx_stored world0)).
  - rewrite Hfwd. reflexivity.
  - rewrite Hfwd. reflexivity.
  - rewrite Hfwd. reflexivity.
Defined.

(** ** The call of the kernel *)

(** C7, as stated, fails on each side.  A MultiRZ built without [n_wires]
    has arity [AnyWires] and its kernel gets no [n_wires]; an RX built
    with [n_wires=1] has arity 1 and its kernel gets [n_wires]; and
    [Hadamard()], a Fixed gate without parameters, hands the call-time
    parameters it was given to its kernel. *)
Lemma kernel_arguments_follow_the_instance :
  (construct (Reference.torch 0 0) MultiRZ
     (Some (mkArgs true false (Some (InitScalar (3 / 10)%R)) None)) world0
   = (Ok multirz_no_wires, world0) /\
   num_wires MultiRZ = AnyWires /\
   calls (world_after (forward 0 [0%Z; 1%Z] None multirz_no_wires world0))
   = [mkCall "multirz" 0 [0%Z; 1%Z]
             (Given (mkTensor [[(3 / 10)%R]] false true)) Missing]) /\
  (construct (Reference.torch 0 0) RX
     (Some (mkArgs true false (Some (InitScalar (3 / 10)%R)) (Some 1%Z)))
     world0
   = (Ok rx_one_wire, world0) /\
   num_wires RX = 1%Z /\
   calls (world_after (forward 0 [0%Z] None rx_one_wire world0))
   = [mkCall "rx" 0 [0%Z]
             (Given (mkTensor [[(3 / 10)%R]] false true)) (Given 1%Z)]) /\
  (construct (Reference.torch 0 0) Hadamard None world0
   = (Ok hadamard0, world0) /\
   has_params hadamard0 = Some false /\
   calls (world_after (forward 0 [0%Z] (Some p0) hadamard0 world0))
   = [mkCall "hadamard" 0 [0%Z] (Given p0) Missing]).
Proof. repeat split. Qed.

(** C7, amended: a [forward] that returns makes exactly one kernel call,
    to the kernel of the class, with the device and the wires; [params=]
    is written exactly when [self.params], after the call-time parameters
    have been stored, is not [None], and [n_wires=] exactly when the
    instance attribute [n_wires] is not [None].  A [forward] that raises,
    at the check or at the assignment of the call-time parameters, makes
    no kernel call. *)
Theorem forward_kernel_call :
  forall (q_device : QuantumDevice) (wires : list Z)
         (params_ : option tensor) (o : obj) (w : world),
    (outcome (forward q_device wires params_ o w) = Ok tt ->
     calls (world_after (forward q_device wires params_ o w))
     = calls w
       ++ [mkCall (func (cls o)) q_device wires
                  (keyword (params_at_dispatch o params_))
                  (keyword (n_wires o))]
     /\ log (world_after (forward q_device wires params_ o w)) = log w)
    /\
    (outcome (forward q_device wires params_ o w) <> Ok tt ->
     calls (world_after (forward q_device wires params_ o w)) = calls w).
Proof.
  intros q_device wires params_ o w.
  destruct o as [c nm ps nw hp tr rt regs].
  unfold forward, outcome, world_after, params_at_dispatch, keyword.
  unfold_monad. cbn -[py_in].
  destruct (py_in nm fixed_ops); destruct hp as [[|]|];
    destruct params_ as [[pd prg [|]]|]; cbn;
    destruct ps as [[sd srg [|]]|], nw; cbn;
    (split; intros H;
     [ try discriminate; split; reflexivity
     | try reflexivity; exfalso; apply H; reflexivity ]).
Qed.

Lemma forward_kernel_call_witness :
  calls (world_after (forward 0 [0%Z; 1%Z] None multirz_two_wires world0))
  = [mkCall "multirz" 0 [0%Z; 1%Z]
            (Given (mkTensor [[(3 / 10)%R]] false true)) (Given 2%Z)] /\
  outcome (forward 0 [0%Z] (Some p0) s_with_params world0)
  = Raise TypeError /\
  calls (world_after (forward 0 [0%Z] (Some p0) s_with_params world0))
  = [].
Proof.
  split.
  - exact (proj1 (proj1 (forward_kernel_call 0 [0%Z; 1%Z] None
                           multirz_two_wires world0) eq_refl)).
  - split; [reflexivity | ].
    apply (proj2 (forward_kernel_call 0 [0%Z] (Some p0) s_with_params
                    world0)).
    discriminate.
Defined.

(** ** Diagonalizing gates *)

(** C9: on a PauliY instance, [diagonalizing_gates] returns three fresh
    instances, [PauliZ()], then [S()], then [Hadamard()], and changes
    neither the instance nor the world. *)
Theorem PauliY_diagonalizing_gates :
  forall (torch : Torch) (o : obj) (w : world),
    cls o = PauliY ->
    diagonalizing_gates torch o w = (Ok [pauliz0; s0; hadamard0], o, w) /\
    construct torch PauliZ None w = (Ok pauliz0, w) /\
    construct torch S None w = (Ok s0, w) /\
    construct torch Hadamard None w = (Ok hadamard0, w) /\
    map cls [pauliz0; s0; hadamard0] = [PauliZ; S; Hadamard].
Proof.
  intros torch o w H.
  unfold diagonalizing_gates. unfold_monad. cbn. rewrite H.
  repeat split.
Qed.

Lemma PauliY_diagonalizing_gates_witness :
  construct (Reference.torch 0 0) PauliY None world0 = (Ok pauliy0, world0)
  /\ diagonalizing_gates (Reference.torch 0 0) pauliy0 world0
     = (Ok [pauliz0; s0; hadamard0], pauliy0, world0).
Proof.
  split; [reflexivity | ].
  exact (proj1 (PauliY_diagonalizing_gates (Reference.torch 0 0) pauliy0
                  world0 eq_refl)).
Defined.

(** ** Construction with initial values *)

Lemma fresh_row_length (torch : Torch) (g : gate) :
  List.length (fresh_row torch g) = num_params g.
Proof. unfold fresh_row. now rewrite length_map, length_seq. Qed.

Lemma fill_all_row (v : R) (r : list R) :
  fill_all v [r] = [repeat v (List.length r)].
Proof.
  unfold fill_all. cbn. f_equal.
  induction r as [|x r IH]; cbn; [reflexivity | now rewrite IH].
Qed.

Lemma warned_rng_pos (a : op_args) (w : world) :
  rng_pos (warned a w) = rng_pos w.
Proof. unfold warned. destruct (_ && _); reflexivity. Qed.

Lemma warned_calls (a : op_args) (w : world) :
  calls (warned a w) = calls w.
Proof. unfold warned. destruct (_ && _); reflexivity. Qed.

Section ConstructParameterised.

Context (torch : Torch) (g : gate) (a : op_args) (w : world).
Hypothesis Hobs : is_observable g = false.
Hypothesis Hparam : a_has_params a || a_trainable a = true.

Lemma construct_list_fits (l : list R) :
  a_init_params a = Some (InitList l) ->
  List.length l <= num_params g ->
  construct torch g (Some a) w
  = (Ok (initialised g (a_trainable a) (a_n_wires a)
           [l ++ skipn (List.length l) (fresh_row torch g)]),
     warned a w).
Proof.
  intros Hinit Hlen.
  rewrite construct_Operation by exact Hobs. rewrite Hparam, Hinit.
  unfold reset_params.
  erewrite reset_enumerate_fits;
    [ | reflexivity
      | cbn; fold (fresh_row torch g); rewrite fresh_row_length; lia ].
  cbn. fold (fresh_row torch g).
  rewrite overwrite_from_start by (rewrite fresh_row_length; lia).
  reflexivity.
Qed.

Lemma construct_list_overflows (l : list R) :
  a_init_params a = Some (InitList l) ->
  num_params g < List.length l ->
  construct torch g (Some a) w = (Raise IndexError, warned a w).
Proof.
  intros Hinit Hlen.
  rewrite construct_Operation by exact Hobs. rewrite Hparam, Hinit.
  unfold reset_params.
  destruct (reset_enumerate_overflows l 0
              (allocated torch g (a_trainable a)) (warned a w)
              (mkTensor [fresh_row torch g] (a_trainable a) true) eq_refl)
    as [Hout Hw].
  - lia.
  - cbn. rewrite fresh_row_length. lia.
  - unfold outcome, world_after in Hout, Hw.
    destruct (reset_enumerate 0 l (allocated torch g (a_trainable a))
                (warned a w)) as [[r o'] w''].
    cbn in Hout, Hw. subst r w''. reflexivity.
Qed.

Lemma construct_scalar (v : R) :
  a_init_params a = Some (InitScalar v) ->
  construct torch g (Some a) w
  = (Ok (initialised g (a_trainable a) (a_n_wires a)
           [repeat v (num_params g)]),
     warned a w).
Proof.
  intros Hinit.
  rewrite construct_Operation by exact Hobs. rewrite Hparam, Hinit.
  erewrite reset_params_scalar by reflexivity.
  cbn [data allocated params]. fold (fresh_row torch g).
  rewrite fill_all_row, fresh_row_length. reflexivity.
Qed.

Lemma construct_uniform :
  a_init_params a = None ->
  construct torch g (Some a) w
  = (Ok (initialised g (a_trainable a) (a_n_wires a)
           [map (fun k => uniform_draw torch (rng_pos w + k))
                (seq 0 (num_params g))]),
     mkWorld (log (warned a w)) (rng_pos w + num_params g) (calls w)).
Proof.
  intros Hinit.
  rewrite construct_Operation by exact Hobs. rewrite Hparam, Hinit.
  erewrite reset_params_uniform by reflexivity.
  cbn [data allocated params fill_uniform fst snd].
  fold (fresh_row torch g).
  rewrite fresh_row_length, warned_rng_pos, warned_calls. reflexivity.
Qed.

End ConstructParameterised.




Lemma initial_row_length (torch : Torch) (g : gate) (w : world)
  (init : option init_value) :
  (forall l, init = Some (InitList l) -> List.length l <= num_params g) ->
  List.length (initial_row torch g w init) = num_params g.
Proof.
  intros H. destruct init as [[v|l]|]; cbn [initial_row].
  - apply repeat_length.
  - specialize (H l eq_refl).
    rewrite length_app, length_skipn, fresh_row_length. lia.
  - now rewrite length_map, length_seq.
Qed.

(** C6, as stated, fails: [Hadamard(trainable=True)] raises [TypeError],
    because the constructor it inherits first is [Observable.__init__],
    which takes no argument; and [RX(trainable=True, init_params=[1, 2])]
    raises [IndexError] after the diagnostic. *)
Lemma trainable_construction_can_raise :
  (is_operation Hadamard = true /\
   construct (Reference.torch 0 0) Hadamard
     (Some (mkArgs false true None None)) world0
   = (Raise TypeError, world0)) /\
  (is_operation RX = true /\
   construct (Reference.torch 0 0) RX
     (Some (mkArgs false true (Some (InitList [1%R; 2%R])) None)) world0
   = (Raise IndexError, mkWorld [trainable_warning] 0 [])).
Proof. repeat split. Qed.

(** C6, amended: for every class whose constructor is
    [Operation.__init__] (every Operation class but Hadamard), called with
    [trainable=True], [has_params=False] and initial values that are
    absent, a number, or a list no longer than [num_params], the
    constructor returns an instance with [has_params] and [trainable]
    true that holds one row of [num_params] initialised entries, with
    [requires_grad] set, and the diagnostic is appended to the log. *)
Theorem trainable_forces_has_params :
  forall (torch : Torch) (g : gate) (init : option init_value)
         (nw : option Z) (w : world),
    is_observable g = false ->
    (forall l, init = Some (InitList l) ->
               List.length l <= num_params g) ->
    exists (o : obj) (w' : world),
      construct torch g (Some (mkArgs false true init nw)) w = (Ok o, w') /\
      has_params o = Some true /\
      trainable o = Some true /\
      params o = Some (mkTensor [initial_row torch g w init] true true) /\
      List.length (initial_row torch g w init) = num_params g /\
      n_wires o = nw /\
      log w' = log w ++ [trainable_warning].
Proof.
  intros torch g init nw w Hobs Hlen.
  pose proof (initial_row_length torch g w init Hlen) as Hrow.
  destruct init as [[v|l]|].
  - eexists. eexists. split.
    + apply construct_scalar; [exact Hobs | reflexivity | reflexivity].
    + repeat split; try reflexivity. exact Hrow.
  - eexists. eexists. split.
    + apply construct_list_fits;
        [exact Hobs | reflexivity | reflexivity | ].
      exact (Hlen l eq_refl).
    + repeat split; try reflexivity. exact Hrow.
  - eexists. eexists. split.
    + apply construct_uniform; [exact Hobs | reflexivity | reflexivity].
    + repeat split; try reflexivity. exact Hrow.
Qed.

Lemma trainable_forces_has_params_witness :
  exists (o : obj) (w' : world),
    construct (Reference.torch 7 9) RX
      (Some (mkArgs false true None None)) world0 = (Ok o, w') /\
    has_params o = Some true /\
    trainable o = Some true /\
    params o = Some (mkTensor [[9%R]] true true) /\
    log w' = [trainable_warning].
Proof.
  destruct (trainable_forces_has_params (Reference.torch 7 9) RX None None
              world0 eq_refl)
    as (o & w' & Hc & Hhp & Htr & Hp & _ & _ & Hlog).
  - intros l H. discriminate H.
  - exists o, w'. repeat split; assumption.
Defined.

(** ** Explicit initial values *)


Lemma ry_half_matrix (tqf : Functional) (trainable_ : bool)
  (n_wires_ : option Z) (w : world) :
  outcome (matrix tqf (ry_half trainable_ n_wires_) w)
  = ry_matrix tqf (Some (mkTensor [[(1 / 2)%R]] trainable_ true)).
Proof. reflexivity. Qed.



(** * Further properties *)

(** ** The catalogue and the two lists of names *)

(** X1: every class of the catalogue has its name in exactly one of
    [fixed_ops] and [parameterized_ops]; it is in [fixed_ops] exactly when
    the class has no parameter and exactly when the class carries a
    constant [matrix]; and a class that carries constant [eigvals] is in
    [fixed_ops]. *)
Theorem catalogue_names_and_parameters :
  forall (tqf : Functional) (g : gate),
    py_in (class_name g) parameterized_ops
    = negb (py_in (class_name g) fixed_ops) /\
    Nat.eqb (num_params g) 0 = py_in (class_name g) fixed_ops /\
    is_some (matrix_attr tqf g) = py_in (class_name g) fixed_ops /\
    implb (is_some (eigvals_attr g)) (py_in (class_name g) fixed_ops)
    = true.
Proof. intros tqf g. destruct g; repeat split. Qed.

(** ** What a constructor returns *)

Lemma is_operation_of_not_observable (g : gate) :
  is_observable g = false -> is_operation g = true.
Proof.
  unfold is_observable, is_operation. destruct (bases g);
    intros H; try discriminate; reflexivity.
Qed.

Lemma construct_Observable_default (torch : Torch) (g : gate) (w : world) :
  is_observable g = true ->
  construct torch g None w
  = (Ok (mkObj g (class_name g) None None
               (if is_operation g then Some false else None)
               (if is_operation g then Some false else None) true []),
     w).
Proof.
  unfold is_observable, is_operation.
  unfold construct, Observable__init__, Operation__init__,
    Operator__init__.
  unfold_monad.
  destruct (bases g) eqn:Hb; intros H; try discriminate;
    cbn; rewrite Hb; reflexivity.
Qed.

(** Every successful construction of a parameterised instance has one of
    three forms. *)
Lemma construct_parameterised_forms
  (torch : Torch) (g : gate) (a : op_args) (w w' : world) (o : obj) :
  is_observable g = false ->
  a_has_params a || a_trainable a = true ->
  construct torch g (Some a) w = (Ok o, w') ->
  exists row,
    o = initialised g (a_trainable a) (a_n_wires a) [row] /\
    List.length row = num_params g /\
    log w' = log (warned a w) /\
    calls w' = calls w /\
    rng_pos w'
    = rng_pos w
      + match a_init_params a with
        | None => num_params g
        | Some _ => 0
        end.
Proof.
  intros Hobs Hparam Hc.
  destruct (a_init_params a) as [[v|l]|] eqn:Hi.
  - rewrite (construct_scalar torch g a w Hobs Hparam v Hi) in Hc.
    injection Hc as <- <-. eexists. split; [reflexivity | ].
    rewrite repeat_length, warned_rng_pos, warned_calls.
    repeat split; lia.
  - destruct (le_lt_dec (List.length l) (num_params g)) as [Hle|Hlt].
    + rewrite (construct_list_fits torch g a w Hobs Hparam l Hi Hle) in Hc.
      injection Hc as <- <-. eexists. split; [reflexivity | ].
      rewrite length_app, length_skipn, fresh_row_length,
        warned_rng_pos, warned_calls.
      repeat split; lia.
    + rewrite (construct_list_overflows torch g a w Hobs Hparam l Hi Hlt)
        in Hc.
      discriminate.
  - rewrite (construct_uniform torch g a w Hobs Hparam Hi) in Hc.
    injection Hc as <- <-. eexists. split; [reflexivity | ].
    rewrite length_map, length_seq. repeat split.
Qed.

(** X2: an instance that a constructor returns has the class and the name
    of its class and [return_type] exactly when the class is an
    observable.  For a class that is not an [Operation] it has neither
    [has_params] nor [trainable] and holds no parameters.  Otherwise both
    flags exist, [trainable] implies [has_params], and the instance holds
    parameters exactly when [has_params] is true: then they are one row
    of [num_params] entries whose [requires_grad] is the [trainable] flag,
    _parameters once under the name of the class followed by [_params]. *)
Theorem construct_invariant :
  forall (torch : Torch) (g : gate) (args : option op_args)
         (w w' : world) (o : obj),
    construct torch g args w = (Ok o, w') ->
    cls o = g /\
    _name o = class_name g /\
    return_type o = is_observable g /\
    match has_params o, trainable o with
    | None, None =>
        is_operation g = false /\ params o = None /\
        n_wires o = None /\ _parameters o = []
    | Some hp, Some tr =>
        is_operation g = true /\ implb tr hp = true /\
        match params o with
        | Some t =>
            hp = true /\ requires_grad t = tr /\
            is_parameter t = true /\
            shape (data t) = [num_params g] /\
            _parameters o = [(class_name g ++ "_params")%string; "params"]
        | None => hp = false /\ _parameters o = []
        end
    | _, _ => False
    end.
Proof.
  intros torch g args w w' o Hc.
  destruct (is_observable g) eqn:Hobs.
  - destruct args as [a|].
    + rewrite construct_Observable_rejects_arguments in Hc by exact Hobs.
      discriminate.
    + rewrite construct_Observable_default in Hc by exact Hobs.
      injection Hc as <- <-. cbn.
      destruct (is_operation g); repeat split.
  - assert (Hop := is_operation_of_not_observable g Hobs).
    assert (Hgen : forall a, construct torch g (Some a) w = (Ok o, w') ->
                             cls o = g /\ _name o = class_name g /\
                             return_type o = false /\
                             match has_params o, trainable o with
                             | None, None =>
                                 is_operation g = false /\ params o = None /\
                                 n_wires o = None /\ _parameters o = []
                             | Some hp, Some tr =>
                                 is_operation g = true /\
                                 implb tr hp = true /\
                                 match params o with
                                 | Some t =>
                                     hp = true /\ requires_grad t = tr /\
                                     is_parameter t = true /\
                                     shape (data t) = [num_params g] /\
                                     _parameters o
                                     = [(class_name g ++ "_params")%string;
                                        "params"]
                                 | None => hp = false /\ _parameters o = []
                                 end
                             | _, _ => False
                             end).
    { intros a Ha.
      destruct (a_has_params a || a_trainable a) eqn:E.
      - destruct (construct_parameterised_forms torch g a w w' o Hobs E Ha)
          as (row & -> & Hlen & _).
        cbn. rewrite Hlen.
        destruct (a_trainable a); repeat split; assumption.
      - rewrite construct_Operation in Ha by exact Hobs. rewrite E in Ha.
        injection Ha as <- <-. cbn. repeat split; assumption. }
    destruct args as [a|].
    + exact (Hgen a Hc).
    + rewrite construct_default in Hc by exact Hobs.
      exact (Hgen default_args Hc).
Qed.

Lemma construct_invariant_witness :
  cls rx_stored = RX /\
  _name rx_stored = "RX" /\
  return_type rx_stored = false /\
  is_operation RX = true /\
  shape [[(3 / 10)%R]] = [num_params RX] /\
  _parameters rx_stored = ["RX_params"; "params"].
Proof.
  destruct (construct_invariant (Reference.torch 0 0) RX _ world0 world0
              rx_stored (rx_stored_constructed _))
    as (Hc & Hn & Hr & Hop & _ & _ & _ & _ & Hs & Hkeys).
  split; [exact Hc | split; [exact Hn | split; [exact Hr | ]]].
  split; [exact Hop | split; [exact Hs | exact Hkeys]].
Defined.

(** X3: whatever its arguments and whether it returns or raises, a
    constructor calls no kernel; a constructor that runs
    [Operation.__init__] with arguments logs the diagnostic exactly when
    [trainable] is set without [has_params], also when it then raises;
    and it consumes [num_params] draws when the instance is parameterised
    and no initial value is given, and none otherwise. *)
Theorem construct_effects :
  forall (torch : Torch) (g : gate) (args : option op_args) (w : world),
    calls (snd (construct torch g args w)) = calls w /\
    log (snd (construct torch g args w))
    = match args with
      | Some a => if is_observable g then log w else log (warned a w)
      | None => log w
      end /\
    rng_pos (snd (construct torch g args w))
    = rng_pos w
      + match args with
        | Some a =>
            if negb (is_observable g)
               && (a_has_params a || a_trainable a)
               && negb (is_some (a_init_params a))
            then num_params g
            else 0
        | None => 0
        end.
Proof.
  intros torch g args w.
  assert (Hgen : forall a,
             is_observable g = false ->
             calls (snd (construct torch g (Some a) w)) = calls w /\
             log (snd (construct torch g (Some a) w)) = log (warned a w) /\
             rng_pos (snd (construct torch g (Some a) w))
             = rng_pos w
               + (if (a_has_params a || a_trainable a)
                     && negb (is_some (a_init_params a))
                  then num_params g else 0)).
  { intros a Hobs.
    destruct (a_has_params a || a_trainable a) eqn:E.
    - destruct (a_init_params a) as [[v|l]|] eqn:Hi.
      + rewrite (construct_scalar torch g a w Hobs E v Hi). cbn.
        rewrite warned_rng_pos, warned_calls. repeat split; lia.
      + destruct (le_lt_dec (List.length l) (num_params g)) as [Hle|Hlt].
        * rewrite (construct_list_fits torch g a w Hobs E l Hi Hle). cbn.
          rewrite warned_rng_pos, warned_calls. repeat split; lia.
        * rewrite (construct_list_overflows torch g a w Hobs E l Hi Hlt).
          cbn. rewrite warned_rng_pos, warned_calls. repeat split; lia.
      + rewrite (construct_uniform torch g a w Hobs E Hi). cbn.
        repeat split.
    - rewrite construct_Operation by exact Hobs. rewrite E. cbn.
      apply orb_false_iff in E. destruct E as [_ Etr].
      unfold warned. rewrite Etr. cbn. repeat split; lia. }
  destruct (is_observable g) eqn:Hobs.
  - destruct args as [a|].
    + rewrite construct_Observable_rejects_arguments by exact Hobs. cbn.
      repeat split; lia.
    + rewrite construct_Observable_default by exact Hobs. cbn.
      repeat split; lia.
  - destruct args as [a|].
    + cbn [negb andb]. exact (Hgen a eq_refl).
    + rewrite construct_default by exact Hobs.
      destruct (Hgen default_args eq_refl) as (Hc & Hl & Hr).
      cbn in Hr. repeat split; assumption.
Qed.

(** ** More on [reset_params] *)

Lemma map_seq_offset {A} (f : nat -> A) (a s n : nat) :
  map f (seq (a + s) n) = map (fun k => f (a + k)) (seq s n).
Proof.
  revert s. induction n as [|n IH]; intros s; cbn; [reflexivity | ].
  f_equal. rewrite <- IH. f_equal. f_equal. lia.
Qed.

Lemma fill_uniform_spec (draw : nat -> R) :
  forall (d : list (list R)) (pos : nat),
    shape (fst (fill_uniform draw pos d)) = shape d /\
    snd (fill_uniform draw pos d) = pos + numel d /\
    List.concat (fst (fill_uniform draw pos d))
    = map (fun k => draw (pos + k)) (seq 0 (numel d)).
Proof.
  induction d as [|r d IH]; intros pos.
  - cbn. repeat split. lia.
  - cbn [fill_uniform].
    destruct (IH (pos + List.length r)) as (Hs & Hp & Hc).
    destruct (fill_uniform draw (pos + List.length r) d) as [rest pos'].
    cbn in Hs, Hp, Hc. cbn [fst snd shape map numel fold_right List.concat].
    unfold shape in Hs.
    change (fold_right (fun (r0 : list R) (n : nat) => List.length r0 + n)
                       0 d)
      with (numel d).
    rewrite length_map, length_seq, Hs, Hc. subst pos'.
    repeat split; [lia | ].
    rewrite seq_app, map_app. f_equal.
    replace (0 + List.length r) with (List.length r + 0) by lia.
    rewrite (map_seq_offset (fun k => draw (pos + k)) (List.length r) 0).
    apply map_ext. intros k. f_equal. lia.
Qed.








Lemma shape_fill_col (k : nat) (v : R) (d : list (list R)) :
  shape (fill_col k v d) = shape d.
Proof.
  unfold shape, fill_col. rewrite map_map. apply map_ext.
  intros r. apply set_nth_length.
Qed.

Lemma shape_fill_all (v : R) (d : list (list R)) :
  shape (fill_all v d) = shape d.
Proof.
  unfold shape, fill_all. rewrite map_map. apply map_ext.
  intros r. apply length_map.
Qed.

Lemma reset_enumerate_shape :
  forall (l : list R) (k : nat) (o : obj) (w : world) (t : tensor),
    params o = Some t ->
    exists d',
      self_after (reset_enumerate k l o w)
      = with_params o (Some (with_data t d')) /\
      shape d' = shape (data t) /\
      world_after (reset_enumerate k l o w) = w.
Proof.
  induction l as [|v l IH]; intros k o w t Hp.
  - exists (data t). cbn. rewrite (with_params_same o t Hp).
    repeat split.
  - cbn [reset_enumerate]. unfold bind.
    rewrite (constant_column_eq k v o w t Hp).
    destruct (k <? ncols (data t))%nat.
    + destruct (IH (Datatypes.S k)
                  (with_params o
                     (Some (with_data t (fill_col k v (data t))))) w
                  (with_data t (fill_col k v (data t)))
                  eq_refl)
        as (d' & Hself & Hshape & Hw).
      exists d'. rewrite Hself, Hw. cbn in Hshape.
      rewrite shape_fill_col in Hshape. repeat split. exact Hshape.
    + exists (data t). cbn. rewrite (with_params_same o t Hp).
      repeat split.
Qed.

(** X7: on an instance that holds parameters, [reset_params], whether it
    returns or raises, changes no attribute but [params], keeps the shape
    of the tensor and its [requires_grad] flag, logs nothing and calls no
    kernel. *)
Theorem reset_params_keeps_shape :
  forall (torch : Torch) (init : option init_value) (o : obj) (w : world)
         (t : tensor),
    params o = Some t ->
    exists d',
      self_after (reset_params torch init o w)
      = with_params o (Some (with_data t d')) /\
      shape d' = shape (data t) /\
      log (world_after (reset_params torch init o w)) = log w /\
      calls (world_after (reset_params torch init o w)) = calls w.
Proof.
  intros torch init o w t Hp.
  destruct init as [[v|l]|].
  - rewrite (reset_params_scalar torch v o w t Hp).
    eexists. split; [reflexivity | ].
    rewrite shape_fill_all. repeat split.
  - unfold reset_params.
    destruct (reset_enumerate_shape l 0 o w t Hp)
      as (d' & Hself & Hshape & Hw).
    exists d'. rewrite Hself, Hw. repeat split. exact Hshape.
  - rewrite (reset_params_uniform torch o w t Hp).
    eexists. split; [reflexivity | ].
    destruct (fill_uniform_spec (uniform_draw torch) (data t) (rng_pos w))
      as (Hs & _ & _).
    repeat split. exact Hs.
Qed.

Lemma reset_params_keeps_shape_witness :
  exists d',
    self_after (reset_params (Reference.torch 7 9)
                  (Some (InitList [1%R; 2%R])) rx_stored world0)
    = with_params rx_stored (Some (mkTensor d' false true)) /\
    shape d' = [1].
Proof.
  destruct (reset_params_keeps_shape (Reference.torch 7 9)
              (Some (InitList [1%R; 2%R])) rx_stored world0
              (mkTensor [[(3 / 10)%R]] false true) eq_refl)
    as (d' & Hself & Hshape & _).
  exists d'. split; [exact Hself | exact Hshape].
Defined.




(** ** More on [forward]

    Several statements below are made for an instance that holds no
    parameters, or for a call that brings none: there the assignment of
    the call-time parameters cannot be refused. *)

Lemma store_refused_unset (o : obj) (params_ : option tensor) :
  params o = None -> store_refused o params_ = false.
Proof.
  unfold store_refused. intros ->. destruct params_; reflexivity.
Qed.

Lemma store_refused_guard (o : obj) (params_ : option tensor) :
  params o = None \/ params_ = None -> store_refused o params_ = false.
Proof.
  intros [H | ->]; [exact (store_refused_unset o _ H) | reflexivity].
Qed.

(** The four ways in which [forward] ends. *)
Lemma forward_outcome (q_device : QuantumDevice) (wires : list Z)
  (params_ : option tensor) (o : obj) (w : world) :
  outcome (forward q_device wires params_ o w)
  = if py_in (_name o) fixed_ops
    then if store_refused o params_ then Raise TypeError else Ok tt
    else match has_params o with
         | None => Raise AttributeError
         | Some hp =>
             if xorb hp (is_some params_)
             then if store_refused o params_
                  then Raise TypeError else Ok tt
             else Raise AssertionError
         end.
Proof.
  destruct o as [c nm ps nw hp tr rt regs].
  unfold forward, outcome, store_refused. unfold_monad. cbn -[py_in].
  destruct (py_in nm fixed_ops); destruct hp as [[|]|];
    destruct params_ as [[pd prg [|]]|]; cbn;
    destruct ps as [[sd srg [|]]|], nw; reflexivity.
Qed.

Lemma forward_world (q_device : QuantumDevice) (wires : list Z)
  (params_ : option tensor) (o : obj) (w : world) :
  world_after (forward q_device wires params_ o w)
  = match outcome (forward q_device wires params_ o w) with
    | Ok _ =>
        mkWorld (log w) (rng_pos w)
                (calls w
                 ++ [dispatch o q_device wires
                              (params_at_dispatch o params_)])
    | Raise AssertionError =>
        mkWorld (log w ++ [conflict_message]) (rng_pos w) (calls w)
    | Raise _ => w
    end.
Proof.
  destruct o as [c nm ps nw hp tr rt regs]. destruct w as [lg pos cs].
  unfold forward, outcome, world_after, dispatch, params_at_dispatch,
    keyword, conflict_message.
  unfold_monad. cbn -[py_in].
  destruct (py_in nm fixed_ops); destruct hp as [[|]|];
    destruct params_ as [[pd prg [|]]|]; cbn;
    destruct ps as [[sd srg [|]]|], nw; reflexivity.
Qed.

(** X9: a [forward] that is refused by its assertion calls no kernel,
    leaves the instance as it was, consumes no draw and logs the
    conflict exactly once. *)
Theorem forward_refused_does_nothing :
  forall (q_device : QuantumDevice) (wires : list Z)
         (params_ : option tensor) (o : obj) (w : world),
    outcome (forward q_device wires params_ o w) = Raise AssertionError ->
    self_after (forward q_device wires params_ o w) = o /\
    calls (world_after (forward q_device wires params_ o w)) = calls w /\
    log (world_after (forward q_device wires params_ o w))
    = log w ++ [conflict_message] /\
    rng_pos (world_after (forward q_device wires params_ o w))
    = rng_pos w.
Proof.
  intros q_device wires params_ o w H.
  rewrite forward_params, forward_world, H. repeat split.
Qed.

Lemma forward_refused_does_nothing_witness :
  self_after (forward 0 [0%Z] (Some p0) rx_stored world0) = rx_stored /\
  calls (world_after (forward 0 [0%Z] (Some p0) rx_stored world0)) = [] /\
  log (world_after (forward 0 [0%Z] (Some p0) rx_stored world0))
  = [conflict_message].
Proof.
  destruct (forward_refused_does_nothing 0 [0%Z] (Some p0) rx_stored
              world0 eq_refl)
    as (Hself & Hcalls & Hlog & _).
  repeat split; assumption.
Defined.

(** X10: a [forward] without call-time parameters never changes the
    instance, whether it is accepted or refused; so a gate that owns its
    parameters can be applied any number of times. *)
Theorem forward_without_params_keeps_self :
  forall (q_device : QuantumDevice) (wires : list Z) (o : obj) (w : world),
    self_after (forward q_device wires None o w) = o.
Proof.
  intros q_device wires o w. rewrite forward_params.
  destruct (outcome (forward q_device wires None o w));
    [apply with_params_params | reflexivity].
Qed.

(** X11: call-time parameters stay in the instance.  On a gate whose name
    is in [fixed_ops] and that holds no parameters, a [forward] with
    parameters [p] followed by a [forward] without parameters are both
    accepted and the second kernel call receives [p] again. *)
Theorem forward_fixed_gate_reuses_call_time_params :
  forall (d1 d2 : QuantumDevice) (ws1 ws2 : list Z) (p : tensor)
         (o : obj) (w : world),
    py_in (_name o) fixed_ops = true ->
    params o = None ->
    let r1 := forward d1 ws1 (Some p) o w in
    let r2 := forward d2 ws2 None (self_after r1) (world_after r1) in
    outcome r1 = Ok tt /\
    outcome r2 = Ok tt /\
    calls (world_after r2)
    = calls w ++ [dispatch o d1 ws1 (Some p); dispatch o d2 ws2 (Some p)].
Proof.
  intros d1 d2 ws1 ws2 p o w Hfix Hnone r1 r2.
  assert (H1 : outcome (forward d1 ws1 (Some p) o w) = Ok tt)
    by (rewrite forward_outcome, Hfix, (store_refused_unset o _ Hnone);
        reflexivity).
  assert (Hs1 : self_after (forward d1 ws1 (Some p) o w)
                = with_params o (Some p))
    by (rewrite forward_params, H1; reflexivity).
  assert (Hw1 : world_after (forward d1 ws1 (Some p) o w)
                = mkWorld (log w) (rng_pos w)
                          (calls w ++ [dispatch o d1 ws1 (Some p)]))
    by (rewrite forward_world, H1; reflexivity).
  subst r2 r1. rewrite Hs1, Hw1.
  assert (H2 : outcome (forward d2 ws2 None (with_params o (Some p))
                          (mkWorld (log w) (rng_pos w)
                             (calls w ++ [dispatch o d1 ws1 (Some p)])))
               = Ok tt).
  { rewrite forward_outcome. cbn -[py_in]. rewrite Hfix. reflexivity. }
  split; [exact H1 | split; [exact H2 | ]].
  rewrite forward_world, H2. cbn. rewrite <- app_assoc. reflexivity.
Qed.

Lemma forward_fixed_gate_reuses_call_time_params_witness :
  calls (world_after
           (forward 1 [1%Z] None
              (self_after (forward 0 [0%Z] (Some p0) hadamard0 world0))
              (world_after (forward 0 [0%Z] (Some p0) hadamard0 world0))))
  = [mkCall "hadamard" 0 [0%Z] (Given p0) Missing;
     mkCall "hadamard" 1 [1%Z] (Given p0) Missing].
Proof.
  exact (proj2 (proj2 (forward_fixed_gate_reuses_call_time_params
                         0 1 [0%Z] [1%Z] p0 hadamard0 world0 eq_refl
                         eq_refl))).
Defined.

(** X12: on a gate whose name is not in [fixed_ops] and that was built
    without parameters, every [forward] must bring its parameters.  After
    an accepted call with [p], which is then stored, a call without
    parameters is refused with [AssertionError].  A call with [q] passes
    the check; it is accepted and its kernel call receives [q], unless [p]
    was an [nn.Parameter] and [q] is a plain tensor: then the assignment
    raises [TypeError], [p] stays stored and no kernel is called. *)
Theorem forward_transient_params_each_call :
  forall (d1 d2 : QuantumDevice) (ws1 ws2 : list Z) (p q : tensor)
         (o : obj) (w : world),
    py_in (_name o) fixed_ops = false ->
    has_params o = Some false ->
    params o = None ->
    let r1 := forward d1 ws1 (Some p) o w in
    let r2 := forward d2 ws2 (Some q) (self_after r1) (world_after r1) in
    outcome r1 = Ok tt /\
    params (self_after r1) = Some p /\
    outcome (forward d2 ws2 None (self_after r1) (world_after r1))
    = Raise AssertionError /\
    if is_parameter p && negb (is_parameter q)
    then outcome r2 = Raise TypeError /\
         params (self_after r2) = Some p /\
         calls (world_after r2) = calls w ++ [dispatch o d1 ws1 (Some p)]
    else outcome r2 = Ok tt /\
         params (self_after r2) = Some q /\
         calls (world_after r2)
         = calls w
           ++ [dispatch o d1 ws1 (Some p); dispatch o d2 ws2 (Some q)].
Proof.
  intros d1 d2 ws1 ws2 p q o w Hfix Hhp Hnone r1 r2.
  assert (H1 : outcome (forward d1 ws1 (Some p) o w) = Ok tt)
    by (rewrite forward_outcome, Hfix, Hhp,
          (store_refused_unset o _ Hnone); reflexivity).
  assert (Hs1 : self_after (forward d1 ws1 (Some p) o w)
                = with_params o (Some p))
    by (rewrite forward_params, H1; reflexivity).
  assert (Hw1 : world_after (forward d1 ws1 (Some p) o w)
                = mkWorld (log w) (rng_pos w)
                          (calls w ++ [dispatch o d1 ws1 (Some p)]))
    by (rewrite forward_world, H1; reflexivity).
  subst r2 r1. rewrite Hs1, Hw1.
  assert (H2 : forall ps w1,
             outcome (forward d2 ws2 ps (with_params o (Some p)) w1)
             = if xorb false (is_some ps)
               then if store_refused (with_params o (Some p)) ps
                    then Raise TypeError else Ok tt
               else Raise AssertionError).
  { intros ps w1. rewrite forward_outcome. cbn -[py_in store_refused].
    rewrite Hfix, Hhp. reflexivity. }
  split; [exact H1 | ].
  split; [reflexivity | ].
  split; [exact (H2 None _) | ].
  rewrite forward_params, forward_world, (H2 (Some q)).
  cbn -[dispatch]. rewrite (andb_comm (negb (is_parameter q))).
  destruct (is_parameter p && negb (is_parameter q)); cbn -[dispatch].
  - repeat split.
  - repeat split. rewrite <- app_assoc. reflexivity.
Qed.

(** [RX()] after a [forward] that brought an [nn.Parameter]. *)
Lemma forward_transient_params_each_call_witness :
  outcome (forward 0 [0%Z] (Some p0) rx_bare world0) = Ok tt /\
  outcome (forward 0 [0%Z] None
             (self_after (forward 0 [0%Z] (Some p0) rx_bare world0))
             (world_after (forward 0 [0%Z] (Some p0) rx_bare world0)))
  = Raise AssertionError /\
  outcome (forward 0 [0%Z] (Some p1)
             (self_after (forward 0 [0%Z] (Some p0) rx_bare world0))
             (world_after (forward 0 [0%Z] (Some p0) rx_bare world0)))
  = Ok tt /\
  outcome (forward 0 [0%Z] (Some p1)
             (self_after (forward 0 [0%Z] (Some q0) rx_bare world0))
             (world_after (forward 0 [0%Z] (Some q0) rx_bare world0)))
  = Raise TypeError.
Proof.
  destruct (forward_transient_params_each_call 0 0 [0%Z] [0%Z] p0 p1
              rx_bare world0 eq_refl eq_refl eq_refl)
    as (H1 & _ & H2 & H3 & _).
  destruct (forward_transient_params_each_call 0 0 [0%Z] [0%Z] q0 p1
              rx_bare world0 eq_refl eq_refl eq_refl)
    as (_ & _ & _ & H4 & _).
  repeat split; assumption.
Defined.

Lemma result_eta {A} (x : result A * obj * world) :
  x = (outcome x, self_after x, world_after x).
Proof. destruct x as [[r o] w]. reflexivity. Qed.

(** X13: the validation of [forward] goes by the current name, not by the
    class.  Once the name of an instance is set to one of [fixed_ops],
    a [forward] is accepted whether the instance declares parameters or
    not and whether the call brings some or not (the case left aside is a
    call that brings parameters to an instance that already holds some),
    and the kernel called is still the one of its class. *)
Theorem renaming_into_fixed_ops_disables_validation :
  forall (v : string) (o : obj) (w : world) (q_device : QuantumDevice)
         (wires : list Z) (params_ : option tensor),
    py_in v fixed_ops = true ->
    params o = None \/ params_ = None ->
    name_setter v o w = (Ok tt, with_name o v, w) /\
    outcome (forward q_device wires params_ (with_name o v) w) = Ok tt /\
    calls (world_after (forward q_device wires params_ (with_name o v) w))
    = calls w ++ [dispatch o q_device wires (params_at_dispatch o params_)].
Proof.
  intros v o w q_device wires params_ Hv Hguard.
  assert (H : outcome (forward q_device wires params_ (with_name o v) w)
              = Ok tt).
  { rewrite forward_outcome. cbn -[py_in store_refused]. rewrite Hv.
    change (store_refused (with_name o v) params_)
      with (store_refused o params_).
    rewrite (store_refused_guard o params_ Hguard). reflexivity. }
  split; [reflexivity | split; [exact H | ]].
  rewrite forward_world, H. reflexivity.
Qed.

Lemma renaming_into_fixed_ops_disables_validation_witness :
  name_setter "S" rx_bare world0 = (Ok tt, rx_named_S, world0) /\
  outcome (forward 0 [0%Z] None rx_named_S world0) = Ok tt /\
  calls (world_after (forward 0 [0%Z] None rx_named_S world0))
  = [mkCall "rx" 0 [0%Z] Missing Missing].
Proof.
  exact (renaming_into_fixed_ops_disables_validation "S" rx_bare world0
           0 [0%Z] None eq_refl (or_introl eq_refl)).
Defined.

Lemma not_operation_is_observable (g : gate) :
  is_operation g = false -> is_observable g = true.
Proof.
  unfold is_observable, is_operation. destruct (bases g);
    intros H; try discriminate; reflexivity.
Qed.

Lemma observable_is_fixed (g : gate) :
  is_observable g = true -> py_in (class_name g) fixed_ops = true.
Proof. destruct g; intros H; try discriminate; reflexivity. Qed.

(** X14: an instance of a class that derives from [Observable] only
    (PauliX, PauliY, PauliZ) has no [has_params] attribute.  Under the
    name of its class every [forward] on it is accepted; once its name is
    set outside [fixed_ops], every [forward] raises [AttributeError],
    before anything is logged, stored or called. *)
Theorem renamed_observable_cannot_be_applied :
  forall (torch : Torch) (g : gate) (w0 w0' : world) (o : obj)
         (v : string) (q_device : QuantumDevice) (wires : list Z)
         (params_ : option tensor) (w : world),
    construct torch g None w0 = (Ok o, w0') ->
    is_operation g = false ->
    py_in v fixed_ops = false ->
    outcome (forward q_device wires params_ o w) = Ok tt /\
    forward q_device wires params_ (with_name o v) w
    = (Raise AttributeError, with_name o v, w).
Proof.
  intros torch g w0 w0' o v q_device wires params_ w Hc Hop Hv.
  assert (Hobs := not_operation_is_observable g Hop).
  rewrite construct_Observable_default in Hc by exact Hobs.
  rewrite Hop in Hc. injection Hc as <- <-.
  split.
  - rewrite forward_outcome.
    rewrite (store_refused_unset
               (mkObj g (class_name g) None None None None true [])
               params_ eq_refl).
    cbn -[py_in]. rewrite (observable_is_fixed g Hobs). reflexivity.
  - assert (H : outcome (forward q_device wires params_
                           (with_name
                              (mkObj g (class_name g) None None None None
                                     true []) v) w)
                = Raise AttributeError).
    { rewrite forward_outcome. cbn -[py_in]. rewrite Hv. reflexivity. }
    rewrite (result_eta (forward _ _ _ _ _)).
    rewrite forward_params, forward_world, H. reflexivity.
Qed.

Lemma renamed_observable_cannot_be_applied_witness :
  outcome (forward 0 [0%Z] None
             (mkObj PauliX "PauliX" None None None None true []) world0)
  = Ok tt /\
  forward 0 [0%Z] None paulix_renamed world0
  = (Raise AttributeError, paulix_renamed, world0).
Proof.
  exact (renamed_observable_cannot_be_applied (Reference.torch 0 0) PauliX
           world0 world0 _ "X" 0 [0%Z] None world0
           eq_refl eq_refl eq_refl).
Defined.

(** X15: on an instance that held no parameters, after a [forward] that
    was accepted with call-time parameters [p], reading [matrix] gives
    the constant matrix of the class where the class has one and
    otherwise what [_matrix] of the class returns on [p]: the matrix
    follows the last parameters applied, not those of the
    construction. *)
Theorem matrix_after_forward :
  forall (tqf : Functional) (q_device : QuantumDevice) (wires : list Z)
         (p : tensor) (o : obj) (w w1 : world),
    params o = None ->
    outcome (forward q_device wires (Some p) o w) = Ok tt ->
    outcome (matrix tqf (self_after (forward q_device wires (Some p) o w))
                    w1)
    = match matrix_attr tqf (cls o) with
      | Some m => Ok m
      | None => _matrix tqf (cls o) (Some p) Missing
      end.
Proof.
  intros tqf q_device wires p o w w1 _ H.
  rewrite forward_params, H.
  unfold matrix, outcome. unfold_monad. cbn.
  destruct (matrix_attr tqf (cls o)); reflexivity.
Qed.

Lemma matrix_after_forward_witness :
  outcome (matrix Reference.tqf
             (self_after (forward 0 [0%Z] (Some p0) rx_bare world0))
             world0)
  = Ok (Reference.RX_of 1).
Proof.
  exact (matrix_after_forward Reference.tqf 0 [0%Z] p0 rx_bare world0
           world0 eq_refl eq_refl).
Defined.

Lemma fixed_iff_no_params (g : gate) :
  py_in (class_name g) fixed_ops = Nat.eqb (num_params g) 0.
Proof. destruct g; reflexivity. Qed.

Lemma construct_name_and_flags
  (torch : Torch) (g : gate) (args : option op_args) (w w' : world)
  (o : obj) :
  construct torch g args w = (Ok o, w') ->
  _name o = class_name g /\
  (is_observable g = false ->
   exists hp, has_params o = Some hp /\ is_some (params o) = hp).
Proof.
  intros Hc. destruct (is_observable g) eqn:Hobs.
  - destruct args as [a|].
    + rewrite construct_Observable_rejects_arguments in Hc by exact Hobs.
      discriminate.
    + rewrite construct_Observable_default in Hc by exact Hobs.
      injection Hc as <- <-. split; [reflexivity | discriminate].
  - assert (Hgen : forall a, construct torch g (Some a) w = (Ok o, w') ->
                             _name o = class_name g /\
                             exists hp, has_params o = Some hp /\
                                        is_some (params o) = hp).
    { intros a Ha. destruct (a_has_params a || a_trainable a) eqn:E.
      - destruct (construct_parameterised_forms torch g a w w' o Hobs E Ha)
          as (row & -> & _).
        split; [reflexivity | exists true; split; reflexivity].
      - rewrite construct_Operation in Ha by exact Hobs. rewrite E in Ha.
        injection Ha as <- <-.
        split; [reflexivity | exists false; split; reflexivity]. }
    destruct args as [a|].
    + destruct (Hgen a Hc) as [Hn Hflags]. split; [exact Hn | ].
      intros _. exact Hflags.
    + rewrite construct_default in Hc by exact Hobs.
      destruct (Hgen default_args Hc) as [Hn Hflags].
      split; [exact Hn | ]. intros _. exact Hflags.
Qed.

(** X16: on an instance as its constructor returned it, [forward] never
    raises [AttributeError], and it raises [AssertionError] exactly when
    the class has parameters and the instance stores parameters and the
    call brings some, or the instance stores none and the call brings
    none.  A call that brings no parameters is accepted exactly when the
    class has no parameter or the instance stores some. *)
Theorem forward_on_fresh_instance :
  forall (torch : Torch) (g : gate) (args : option op_args)
         (w w' : world) (o : obj) (q_device : QuantumDevice)
         (wires : list Z) (params_ : option tensor) (w1 : world),
    construct torch g args w = (Ok o, w') ->
    outcome (forward q_device wires params_ o w1) <> Raise AttributeError /\
    (outcome (forward q_device wires params_ o w1) = Raise AssertionError
     <-> Nat.eqb (num_params g) 0 = false
         /\ is_some (params o) = is_some params_) /\
    (outcome (forward q_device wires None o w1) = Ok tt
     <-> Nat.eqb (num_params g) 0 = true \/ is_some (params o) = true).
Proof.
  intros torch g args w w' o q_device wires params_ w1 Hc.
  destruct (construct_name_and_flags torch g args w w' o Hc)
    as [Hn Hflags].
  rewrite !forward_outcome, Hn, fixed_iff_no_params.
  change (store_refused o None) with false.
  destruct (Nat.eqb (num_params g) 0) eqn:E.
  - destruct (store_refused o params_);
      (split; [discriminate | split; split; intros H]);
      break_hyps; try discriminate; auto.
  - assert (Hobs : is_observable g = false).
    { destruct (is_observable g) eqn:Hobs; [ | reflexivity ].
      apply observable_is_fixed in Hobs.
      rewrite fixed_iff_no_params in Hobs. congruence. }
    destruct (Hflags Hobs) as (hp & Hhp & Hsome).
    rewrite Hhp, Hsome.
    destruct hp, params_ as [p|]; cbn -[store_refused];
      try destruct (store_refused o (Some p));
      (split; [discriminate | split; split; intros H]);
      break_hyps; try discriminate; auto.
Qed.

Lemma forward_on_fresh_instance_witness :
  outcome (forward 0 [0%Z] (Some p0) rx_stored world0)
  = Raise AssertionError /\
  outcome (forward 0 [0%Z] None rx_stored world0) = Ok tt.
Proof.
  destruct (forward_on_fresh_instance (Reference.torch 0 0) RX _ world0
              world0 rx_stored 0 [0%Z] (Some p0) world0
              (rx_stored_constructed _))
    as (_ & Hassert & Hok).
  split.
  - apply Hassert. split; reflexivity.
  - apply Hok. right. reflexivity.
Defined.

(** ** More on [diagonalizing_gates] *)

(** X17: [diagonalizing_gates] returns exactly on the instances of the
    four observables, changes neither the instance nor the world (no
    draw, no log, no kernel call), and every gate it returns can be
    applied as it is: a [forward] without call-time parameters is
    accepted on it. *)
Theorem diagonalizing_gates_are_applicable :
  forall (torch : Torch) (o : obj) (w : world),
    self_after (diagonalizing_gates torch o w) = o /\
    world_after (diagonalizing_gates torch o w) = w /\
    is_ok (outcome (diagonalizing_gates torch o w))
    = is_observable (cls o) /\
    forall gs,
      outcome (diagonalizing_gates torch o w) = Ok gs ->
      map cls gs
      = match cls o with
        | Hadamard => [RY]
        | PauliX => [Hadamard]
        | PauliY => [PauliZ; S; Hadamard]
        | _ => []
        end /\
      Forall (fun x =>
                forall (q_device : QuantumDevice) (wires : list Z)
                       (w1 : world),
                  outcome (forward q_device wires None x w1) = Ok tt)
             gs.
Proof.
  intros torch o w.
  unfold diagonalizing_gates, outcome, self_after, world_after.
  unfold_monad. cbn.
  destruct (cls o) eqn:Hcls; cbn;
    (split; [reflexivity | split; [reflexivity | split; [reflexivity | ]]]);
    intros gs Hgs; try discriminate;
    injection Hgs as <-; (split; [reflexivity | ]);
    repeat constructor.
Qed.

(** ** Construction and later calls *)

(** X18: resetting a parameterised instance gives the instance that the
    constructor would have built with the same initial values: for a
    number, and for a list with one value per parameter, [reset_params]
    on any instance returned by the constructor, whatever its first
    initial values were, returns and leaves exactly the instance
    constructed with those values. *)
Theorem reset_params_agrees_with_constructor :
  forall (torch : Torch) (g : gate) (hp tr : bool)
         (first : option init_value) (nw : option Z) (w w' w1 : world)
         (o : obj) (init : init_value),
    is_observable g = false ->
    hp || tr = true ->
    construct torch g (Some (mkArgs hp tr first nw)) w = (Ok o, w') ->
    match init with
    | InitScalar _ => True
    | InitList l => List.length l = num_params g
    end ->
    outcome (reset_params torch (Some init) o w1) = Ok tt /\
    construct torch g (Some (mkArgs hp tr (Some init) nw)) w
    = (Ok (self_after (reset_params torch (Some init) o w1)),
       warned (mkArgs hp tr (Some init) nw) w).
Proof.
  intros torch g hp tr first nw w w' w1 o init Hobs Hparam Hc Hinit.
  destruct (construct_parameterised_forms torch g (mkArgs hp tr first nw)
              w w' o Hobs Hparam Hc)
    as (row & -> & Hlen & _).
  cbn [a_trainable a_n_wires].
  destruct init as [v|l].
  - rewrite (construct_scalar torch g
               (mkArgs hp tr (Some (InitScalar v)) nw) w Hobs Hparam v
               eq_refl).
    erewrite reset_params_scalar by reflexivity.
    cbn [outcome self_after fst snd initialised params data requires_grad
         with_data is_parameter
         a_trainable a_n_wires].
    rewrite fill_all_row, Hlen. split; reflexivity.
  - rewrite (construct_list_fits torch g
               (mkArgs hp tr (Some (InitList l)) nw) w Hobs Hparam l
               eq_refl)
      by lia.
    unfold reset_params.
    erewrite reset_enumerate_fits; [ | reflexivity | cbn; lia ].
    cbn [outcome self_after fst snd initialised params data requires_grad
         with_data is_parameter
         a_trainable a_n_wires map].
    rewrite overwrite_from_start by lia.
    rewrite !skipn_all2 by (rewrite ?fresh_row_length; lia).
    split; reflexivity.
Qed.

Lemma reset_params_agrees_with_constructor_witness :
  outcome (reset_params (Reference.torch 7 9)
             (Some (InitList [(1 / 2)%R])) rx_stored world0) = Ok tt /\
  construct (Reference.torch 7 9) RX
    (Some (mkArgs true false (Some (InitList [(1 / 2)%R])) None)) world0
  = (Ok (self_after (reset_params (Reference.torch 7 9)
                       (Some (InitList [(1 / 2)%R])) rx_stored world0)),
     world0).
Proof.
  exact (reset_params_agrees_with_constructor (Reference.torch 7 9) RX
           true false (Some (InitScalar (3 / 10)%R)) None world0 world0
           world0 rx_stored (InitList [(1 / 2)%R])
           eq_refl eq_refl (rx_stored_constructed _) eq_refl).
Defined.

(** X19: initial values given to a constructor without [has_params] and
    without [trainable] are ignored: the construction returns an instance
    without parameters, draws nothing and logs nothing, also for a list
    whose length is not the number of parameters of the class. *)
Theorem init_params_ignored_without_has_params :
  forall (torch : Torch) (g : gate) (init : option init_value)
         (nw : option Z) (w : world),
    is_observable g = false ->
    construct torch g (Some (mkArgs false false init nw)) w
    = (Ok (parameterless g nw), w).
Proof.
  intros torch g init nw w Hobs.
  rewrite construct_Operation by exact Hobs. reflexivity.
Qed.

Lemma init_params_ignored_without_has_params_witness :
  construct (Reference.torch 7 9) RX
    (Some (mkArgs false false (Some (InitList [1%R; 2%R; 3%R])) None))
    world0
  = (Ok rx_bare, world0).
Proof.
  exact (init_params_ignored_without_has_params (Reference.torch 7 9) RX
           (Some (InitList [1%R; 2%R; 3%R])) None world0 eq_refl).
Defined.


